(** * Quote-analysis backend: scoring rules, ranking, upstream client

    A shallow embedding of the NestJS backend:

    - [QuotesService] (quotes.service.ts): batch-size validation, the three
      business penalty rules ([applyBusinessRules]), the descending sort;
    - [AIServiceClient] (ai-service.client.ts): payload serialisation, the
      single outbound POST, response deserialisation, [handleError],
      [checkHealth];
    - [Legacy]: the earlier revision of both files that is still in the
      tree (inline penalty lambda, inline catch block).

    Modelling conventions.  A JavaScript [number] holding a score or a
    price is an integer of [Z]: the values are JSON integers far below
    2^53, where double arithmetic is exact, so [-] and [Math.max] are
    [Z.sub] and [Z.max].  [number | null] is [option Z].  A body of type
    [any] (the health reply, the body of an error reply) is an arbitrary
    JSON value, with JavaScript truthiness and string conversion.  Arrays are
    lists, strings are [string] (byte strings, the French literals are kept
    byte for byte).  Logger calls have no effect on any returned value and
    are left out.  Promises are run to completion: an [async] method is a
    computation of the monad [M] below, which threads the list of outbound
    HTTP requests and may end in a thrown value. *)

From Stdlib Require Import ZArith List String Ascii Bool Lia DecimalString.
From Stdlib Require Import Permutation Sorted.
Import ListNotations.

Open Scope string_scope.
Open Scope Z_scope.

(** ** JavaScript helpers *)

(** [Array.prototype.push] on a list used as an array. *)
Definition push {A : Type} (l : list A) (x : A) : list A := (l ++ [x])%list.

(** [Array.prototype.join]. *)
Definition join (l : list string) (sep : string) : string := String.concat sep l.

(** [x === null] on a value of type [T | null]. *)
Definition isNull {A : Type} (x : option A) : bool :=
  match x with None => true | Some _ => false end.

(** [Array.prototype.length], as a JavaScript number. *)
Definition len {A : Type} (l : list A) : Z := Z.of_nat (List.length l).

(** ** DTOs (dto/analysis-result.dto.ts, dto/create-quote.dto.ts) *)

Record QuoteAnalysisDto : Type := mkQuoteAnalysisDto {
  vendorName : string;
  price : option Z;
  currency : string;
  strengths : list string;
  weaknesses : list string;
  risks : list string;
  score : Z;
  scoreReasoning : string
}.

Record AnalysisResultDto : Type := mkAnalysisResultDto {
  analyses : list QuoteAnalysisDto;
  recommendation : string;
  analyzedAt : Z
}.

Module CreateQuoteDto.
Record t : Type := mk {
  vendorName : string;
  content : string;
  category : string
}.
End CreateQuoteDto.

(** The two object-spread updates used by the service:
    [{ ...analysis, score: s, scoreReasoning: r }] and
    [{ ...analysis, score: s }]. *)
Definition spread_score_reasoning (analysis : QuoteAnalysisDto) (s : Z) (r : string)
  : QuoteAnalysisDto :=
  {| vendorName := vendorName analysis;
     price := price analysis;
     currency := currency analysis;
     strengths := strengths analysis;
     weaknesses := weaknesses analysis;
     risks := risks analysis;
     score := s;
     scoreReasoning := r |}.

Definition set_scoreReasoning (analysis : QuoteAnalysisDto) (r : string)
  : QuoteAnalysisDto :=
  spread_score_reasoning analysis (score analysis) r.

Definition spread_score (analysis : QuoteAnalysisDto) (s : Z) : QuoteAnalysisDto :=
  spread_score_reasoning analysis s (scoreReasoning analysis).

(** ** The scoring rules (QuotesService.applyBusinessRules) *)

Definition note_price : string := "Prix non spécifié (-10 pts)".
Definition note_strengths : string := "Peu d'avantages identifiés (-5 pts)".
Definition note_risks : string := "Nombreux risques détectés (-10 pts)".
Definition separator : string := " | Ajustements métier : ".
Definition delimiter : string := ", ".

Definition applyBusinessRules (analysis : QuoteAnalysisDto) : QuoteAnalysisDto :=
  let adjustedScore := score analysis in
  let penalties : list string := [] in
  (* Règle 1 : prix manquant *)
  let '(adjustedScore, penalties) :=
    if isNull (price analysis)
    then (adjustedScore - 10, push penalties note_price)
    else (adjustedScore, penalties) in
  (* Règle 2 : peu de points forts *)
  let '(adjustedScore, penalties) :=
    if len (strengths analysis) <? 2
    then (adjustedScore - 5, push penalties note_strengths)
    else (adjustedScore, penalties) in
  (* Règle 3 : trop de risques *)
  let '(adjustedScore, penalties) :=
    if len (risks analysis) >? 3
    then (adjustedScore - 10, push penalties note_risks)
    else (adjustedScore, penalties) in
  (* Le score ne peut pas être négatif *)
  let adjustedScore := Z.max 0 adjustedScore in
  let updatedReasoning := scoreReasoning analysis in
  let updatedReasoning :=
    if len penalties >? 0
    then updatedReasoning ++ (separator ++ join penalties delimiter)
    else updatedReasoning in
  spread_score_reasoning analysis adjustedScore updatedReasoning.

(** [rank]: [result.analyses.sort((a, b) => b.score - a.score)].

    [Array.prototype.sort] is a stable sort (ECMAScript 2019); for a
    comparator that is a consistent total preorder every stable sort
    returns the same array, which is computed here by insertion from the
    right: an element stays in front of the elements it does not compare
    greater than. *)
Section ArraySort.
Context {A : Type}.
Variable compareFn : A -> A -> Z.

Fixpoint sort_insert (x : A) (l : list A) : list A :=
  match l with
  | [] => [x]
  | y :: ys => if compareFn x y <=? 0 then x :: y :: ys
               else y :: sort_insert x ys
  end.

Fixpoint Array_sort (l : list A) : list A :=
  match l with
  | [] => []
  | x :: xs => sort_insert x (Array_sort xs)
  end.
End ArraySort.

Definition byScoreDesc (a b : QuoteAnalysisDto) : Z := score b - score a.

Definition rank (batch : list QuoteAnalysisDto) : list QuoteAnalysisDto :=
  Array_sort byScoreDesc batch.

(** ** Values crossing the HTTP boundary *)

(** A JSON value as [response.data] of type [any] holds it. *)
#[local] Unset Elimination Schemes.
Inductive JsValue : Type :=
| JsUndefined
| JsNull
| JsBoolean (b : bool)
| JsNumber (n : Z)
| JsString (s : string)
| JsArray (items : list JsValue)
| JsObject (props : list (string * JsValue)).
#[local] Set Elimination Schemes.

(** [v === s] for a string literal [s]. *)
Definition strictEqString (v : JsValue) (s : string) : bool :=
  match v with
  | JsString s' => (s' =? s)%string
  | _ => false
  end.

Fixpoint lookupProp (props : list (string * JsValue)) (key : string) : JsValue :=
  match props with
  | [] => JsUndefined
  | (k, v) :: rest => if (k =? key)%string then v else lookupProp rest key
  end.

(** The request body of [POST /analyze] (snake_case). *)
Module Payload.
Record quote : Type := mkQuote {
  vendor_name : string;
  content : string;
  category : string
}.
Record t : Type := mk { quotes : list quote }.
End Payload.

(** The success body of [POST /analyze] (snake_case).  [analyses] is
    [None] when the field is missing or not an array, in which case
    [response.data.analyses.map] raises a [TypeError]. *)
Module Upstream.
Record analysis : Type := mkAnalysis {
  vendor_name : string;
  price : option Z;
  currency : string;
  strengths : list string;
  weaknesses : list string;
  risks : list string;
  score : Z;
  score_reasoning : string
}.
Record data : Type := mkData {
  analyses : option (list analysis);
  recommendation : string
}.
End Upstream.

Module Axios.
Record Response (D : Type) : Type := mkResponse {
  status : Z;
  data : D
}.
Arguments mkResponse {D} _ _.
Arguments status {D} _.
Arguments data {D} _.

(** [response.data] of an error reply is of type [any]: whatever JSON
    value the upstream sent, [JsUndefined] when there is none. *)
Record AxiosError : Type := mkAxiosError {
  code : option string;
  response : option (Response JsValue);
  errorMessage : string
}.
End Axios.

(** ** Exceptions *)

(** The first argument of [new HttpException(response, status)]: a plain
    string or the object [{ statusCode, message, error }]. *)
Inductive ExceptionResponse : Type :=
| TextResponse (message : string)
| ObjectResponse (statusCode : Z) (message : string) (error : string).

(** Everything a method of this program can throw or catch. *)
Inductive Exception : Type :=
| AxiosErr (e : Axios.AxiosError)
| TypeError (message : string)
| HttpException (response : ExceptionResponse) (status : Z)
| BadRequestException (message : string).

Module HttpStatus.
Definition BAD_REQUEST : Z := 400.
Definition INTERNAL_SERVER_ERROR : Z := 500.
Definition SERVICE_UNAVAILABLE : Z := 503.
Definition GATEWAY_TIMEOUT : Z := 504.
End HttpStatus.

(** [axios.isAxiosError]. *)
Definition isAxiosError (error : Exception) : option Axios.AxiosError :=
  match error with
  | AxiosErr e => Some e
  | _ => None
  end.

(** [exception.getStatus()] of a NestJS HTTP exception. *)
Definition getStatus (e : Exception) : option Z :=
  match e with
  | HttpException _ status => Some status
  | BadRequestException _ => Some HttpStatus.BAD_REQUEST
  | _ => None
  end.

(** The message carried by a NestJS HTTP exception. *)
Definition getMessage (e : Exception) : option string :=
  match e with
  | HttpException (TextResponse m) _ => Some m
  | HttpException (ObjectResponse _ m _) _ => Some m
  | BadRequestException m => Some m
  | _ => None
  end.

(** ** Effects: outbound requests and exceptions *)

Inductive Request : Type :=
| POST (url : string) (timeout : Z) (body : Payload.t)
| GET (url : string) (timeout : Z).

(** The world outside the process: what the upstream answers to each
    request, and the clock read by [new Date()]. *)
Record Network : Type := mkNetwork {
  post : string -> Z -> Payload.t -> Exception + Axios.Response Upstream.data;
  get : string -> Z -> Exception + Axios.Response JsValue;
  now : Z
}.

(** A computation appends the requests it sends to the log and ends with
    a value or a thrown exception. *)
Definition M (A : Type) : Type := list Request -> list Request * (Exception + A).

Definition ret {A : Type} (x : A) : M A := fun log => (log, inr x).

Definition throw {A : Type} (e : Exception) : M A := fun log => (log, inl e).

Definition bind {A B : Type} (c : M A) (k : A -> M B) : M B :=
  fun log =>
    match c log with
    | (log', inr x) => k x log'
    | (log', inl e) => (log', inl e)
    end.

Definition tryCatch {A : Type} (c : M A) (handler : Exception -> M A) : M A :=
  fun log =>
    match c log with
    | (log', inr x) => (log', inr x)
    | (log', inl e) => handler e log'
    end.

Notation "x <- c ;; k" := (bind c (fun x => k))
  (at level 61, c at next level, right associativity).

(** Run a computation from an empty request log. *)
Definition run {A : Type} (c : M A) : list Request * (Exception + A) := c [].
Definition outcome {A : Type} (c : M A) : Exception + A := snd (run c).
Definition requests {A : Type} (c : M A) : list Request := fst (run c).

(** [o.key] for a key that is not a built-in property: a [TypeError] on
    [null] and [undefined], [undefined] on the other primitives and on a
    missing key. *)
Definition getProp (o : JsValue) (key : string) : M JsValue :=
  match o with
  | JsUndefined | JsNull => throw (TypeError "Cannot read properties of undefined")
  | JsObject props => ret (lookupProp props key)
  | _ => ret JsUndefined
  end.

(** [arr.map(f)] on a value that may not be an array. *)
Definition mapOrThrow {A B : Type} (arr : option (list A)) (f : A -> B) : M (list B) :=
  match arr with
  | Some l => ret (map f l)
  | None => throw (TypeError "Cannot read properties of undefined")
  end.

(** [ToBoolean]: [undefined], [null], [false], [0] and the empty string
    are falsy, every object and array is truthy. *)
Definition truthy (v : JsValue) : bool :=
  match v with
  | JsUndefined | JsNull => false
  | JsBoolean b => b
  | JsNumber n => negb (n =? 0)
  | JsString s => negb (s =? "")%string
  | JsArray _ | JsObject _ => true
  end.

(** [a || b]: the first operand if it is truthy, the second otherwise. *)
Definition orJs (a b : JsValue) : JsValue := if truthy a then a else b.

(** [o?.key], for a key that is not a built-in property: [undefined]
    on [null] and [undefined], on the other primitives, on arrays and
    on a missing key. *)
Definition optGet (o : JsValue) (key : string) : JsValue :=
  match o with
  | JsObject props => lookupProp props key
  | _ => JsUndefined
  end.

(** [o.key], for a key that is not a built-in property: a [TypeError]
    on [null] and [undefined], and as [o?.key] otherwise. *)
Definition member (o : JsValue) (key : string) : Exception + JsValue :=
  match o with
  | JsUndefined =>
      inl (TypeError ("Cannot read properties of undefined (reading '" ++ key ++ "')"))
  | JsNull =>
      inl (TypeError ("Cannot read properties of null (reading '" ++ key ++ "')"))
  | _ => inr (optGet o key)
  end.

(** Whether the object has an own property of that name. *)
Definition hasOwn (props : list (string * JsValue)) (key : string) : bool :=
  existsb (fun kv => (fst kv =? key)%string) props.

(** [Number::toString] on the integers of the model: the decimal
    numeral. *)
Definition numberToString (n : Z) : string := NilZero.string_of_int (Z.to_int n).

Definition cannot_convert : Exception :=
  TypeError "Cannot convert object to primitive value".

(** [ToString] of a value parsed from JSON, as a template literal
    applies it; [None] stands for the [TypeError] "Cannot convert object
    to primitive value".  An array is rendered by [join(",")], in which
    [null] and [undefined] elements are empty.  An object is rendered as
    "[object Object]" by [Object.prototype.toString], unless it has an own
    property named [toString]: JSON can only give it a value that is not
    callable, and then neither it nor [valueOf] yields a primitive. *)
Fixpoint toStringJs (v : JsValue) : option string :=
  match v with
  | JsUndefined => Some "undefined"
  | JsNull => Some "null"
  | JsBoolean b => Some (if b then "true" else "false")
  | JsNumber n => Some (numberToString n)
  | JsString s => Some s
  | JsArray items =>
      (fix joinItems (l : list JsValue) : option string :=
         match l with
         | [] => Some ""
         | x :: rest =>
             let first :=
               match x with
               | JsUndefined | JsNull => Some ""
               | _ => toStringJs x
               end in
             match first, rest with
             | None, _ => None
             | Some s, [] => Some s
             | Some s, _ :: _ =>
                 match joinItems rest with
                 | Some t => Some (s ++ "," ++ t)
                 | None => None
                 end
             end
         end) items
  | JsObject props =>
      if hasOwn props "toString" then None else Some "[object Object]"
  end.

(** [e.code === c]. *)
Definition codeIs (e : Axios.AxiosError) (c : string) : bool :=
  match Axios.code e with
  | Some s => (s =? c)%string
  | None => false
  end.

(** ** AIServiceClient (ai-service/ai-service.client.ts) *)

Module AIServiceClient.

(** [axios.create({ baseURL, timeout: 35000, ... })]: the instance's
    default timeout; URLs are relative to [baseURL]. *)
Definition timeout : Z := 35000.

Definition client_post (net : Network) (url : string) (body : Payload.t)
  : M (Axios.Response Upstream.data) :=
  fun log => (push log (POST url timeout body), post net url timeout body).

Definition client_get (net : Network) (url : string) (config_timeout : Z)
  : M (Axios.Response JsValue) :=
  fun log => (push log (GET url config_timeout), get net url config_timeout).

Definition unavailable_message : string :=
  "Le service d'analyse IA est temporairement indisponible. Veuillez réessayer dans quelques instants.".
Definition timeout_message : string :=
  "L'analyse prend trop de temps. Veuillez réduire le nombre de devis ou réessayer.".
Definition unknown_ai_error : string := "Erreur inconnue du service IA".
Definition rejected_prefix : string := "Erreur lors de l'analyse : ".
Definition unexpected_message : string :=
  "Une erreur inattendue est survenue lors de l'analyse des devis".

(** [data?.detail || data?.message || 'Erreur inconnue du service IA'],
    on the body of the error reply. *)
Definition aiErrorMessage (data : JsValue) : JsValue :=
  orJs (orJs (optGet data "detail") (optGet data "message"))
       (JsString unknown_ai_error).

(** [handleError(error): never]: every path ends in a [throw]; the
    function returns the exception it throws.  In the branch of an
    upstream reply this is the [HttpException], or the [TypeError] raised
    by the template literal when the value to embed cannot be converted
    to a string. *)
Definition handleError (error : Exception) : Exception :=
  let generic :=
    HttpException
      (ObjectResponse HttpStatus.INTERNAL_SERVER_ERROR unexpected_message
         "Internal Server Error")
      HttpStatus.INTERNAL_SERVER_ERROR in
  match isAxiosError error with
  | Some axiosError =>
      if codeIs axiosError "ECONNREFUSED" || codeIs axiosError "ENOTFOUND" then
        HttpException
          (ObjectResponse HttpStatus.SERVICE_UNAVAILABLE unavailable_message
             "Service Unavailable")
          HttpStatus.SERVICE_UNAVAILABLE
      else if codeIs axiosError "ECONNABORTED" || codeIs axiosError "ETIMEDOUT" then
        HttpException
          (ObjectResponse HttpStatus.GATEWAY_TIMEOUT timeout_message
             "Gateway Timeout")
          HttpStatus.GATEWAY_TIMEOUT
      else
        match Axios.response axiosError with
        | Some response =>
            match toStringJs (aiErrorMessage (Axios.data response)) with
            | Some text =>
                HttpException
                  (ObjectResponse (Axios.status response)
                     (rejected_prefix ++ text) "AI Service Error")
                  (Axios.status response)
            | None => cannot_convert
            end
        | None => generic
        end
  | None => generic
  end.

(** The request mapping [quotes.map((q) => ({ vendor_name: ..., ... }))]. *)
Definition serialize (q : CreateQuoteDto.t) : Payload.quote :=
  {| Payload.vendor_name := CreateQuoteDto.vendorName q;
     Payload.content := CreateQuoteDto.content q;
     Payload.category := CreateQuoteDto.category q |}.

(** The response mapping (snake_case to camelCase). *)
Definition deserialize (analysis : Upstream.analysis) : QuoteAnalysisDto :=
  {| vendorName := Upstream.vendor_name analysis;
     price := Upstream.price analysis;
     currency := Upstream.currency analysis;
     strengths := Upstream.strengths analysis;
     weaknesses := Upstream.weaknesses analysis;
     risks := Upstream.risks analysis;
     score := Upstream.score analysis;
     scoreReasoning := Upstream.score_reasoning analysis |}.

Definition analyzeQuotes (net : Network) (quotes : list CreateQuoteDto.t)
  : M AnalysisResultDto :=
  tryCatch
    (let payload := {| Payload.quotes := map serialize quotes |} in
     response <- client_post net "/analyze" payload ;;
     analyses <- mapOrThrow (Upstream.analyses (Axios.data response)) deserialize ;;
     ret {| analyses := analyses;
            recommendation := Upstream.recommendation (Axios.data response);
            analyzedAt := now net |})
    (fun error => throw (handleError error)).

Definition checkHealth (net : Network) : M bool :=
  tryCatch
    (response <- client_get net "/" 5000 ;;
     status <- getProp (Axios.data response) "status" ;;
     ret (strictEqString status "ok"))
    (fun error => ret false).

End AIServiceClient.

(** ** QuotesService (quotes/quotes.service.ts) *)

Module QuotesService.

Definition too_few_message : string :=
  "Veuillez soumettre au moins 2 devis pour une comparaison pertinente".
Definition too_many_message : string :=
  "Maximum 10 devis par analyse pour garantir un temps de réponse acceptable".

Definition set_analyses (result : AnalysisResultDto) (l : list QuoteAnalysisDto)
  : AnalysisResultDto :=
  {| analyses := l;
     recommendation := recommendation result;
     analyzedAt := analyzedAt result |}.

Definition analyzeQuotes (net : Network) (quotes : list CreateQuoteDto.t)
  : M AnalysisResultDto :=
  if len quotes <? 2 then throw (BadRequestException too_few_message)
  else if len quotes >? 10 then throw (BadRequestException too_many_message)
  else
    result <- AIServiceClient.analyzeQuotes net quotes ;;
    let result := set_analyses result (map applyBusinessRules (analyses result)) in
    let result := set_analyses result (rank (analyses result)) in
    ret result.

(** [getAvailableCategories()]: the fixed list of category labels. *)
Definition getAvailableCategories : list string :=
  [ "Cloud & Infrastructure";
    "Cybersecurity";
    "Software Development";
    "Data Analytics";
    "IT Support & Managed Services";
    "Networking & Connectivity";
    "DevOps & CI/CD";
    "Business Software (CRM, ERP)" ].

Record AnalysisStats : Type := mkAnalysisStats {
  totalAnalyses : Z;
  averageScore : Z
}.

(** [getAnalysisStats()]: a placeholder. *)
Definition getAnalysisStats : AnalysisStats :=
  {| totalAnalyses := 0; averageScore := 0 |}.

End QuotesService.

(** ** The earlier revision kept in the tree *)

Module Legacy.

Definition separator : string := " | Ajustements : ".

(** The lambda passed to [result.analyses.map] by the earlier
    [QuotesService.analyzeQuotes]: the reasoning is appended to the
    argument in place before the spread. *)
Definition adjust (analysis : QuoteAnalysisDto) : QuoteAnalysisDto :=
  let adjustedScore := score analysis in
  let penalties : list string := [] in
  let '(adjustedScore, penalties) :=
    if isNull (price analysis)
    then (adjustedScore - 10, push penalties note_price)
    else (adjustedScore, penalties) in
  let '(adjustedScore, penalties) :=
    if len (strengths analysis) <? 2
    then (adjustedScore - 5, push penalties note_strengths)
    else (adjustedScore, penalties) in
  let '(adjustedScore, penalties) :=
    if len (risks analysis) >? 3
    then (adjustedScore - 10, push penalties note_risks)
    else (adjustedScore, penalties) in
  let adjustedScore := Z.max 0 adjustedScore in
  let analysis :=
    if len penalties >? 0
    then set_scoreReasoning analysis
           (scoreReasoning analysis ++ (separator ++ join penalties delimiter))
    else analysis in
  spread_score analysis adjustedScore.

(** The catch block of the earlier [AIServiceClient.analyzeQuotes]; it
    returns the exception that leaves the method.  Reading [.detail] of
    a [null] or [undefined] body raises a [TypeError] inside the handler,
    and so does a value that cannot be converted to a string. *)
Definition onError (error : Exception) : Exception :=
  let generic :=
    HttpException (TextResponse "Erreur lors de l'analyse des devis")
      HttpStatus.INTERNAL_SERVER_ERROR in
  match isAxiosError error with
  | Some e =>
      if codeIs e "ECONNREFUSED" then
        HttpException
          (TextResponse "Le service IA est indisponible. Veuillez réessayer plus tard.")
          HttpStatus.SERVICE_UNAVAILABLE
      else
        match Axios.response e with
        | Some response =>
            match member (Axios.data response) "detail" with
            | inr detail =>
                match toStringJs (orJs detail (JsString (Axios.errorMessage e))) with
                | Some text =>
                    HttpException
                      (TextResponse ("Erreur du service IA : " ++ text))
                      (Axios.status response)
                | None => cannot_convert
                end
            | inl typeError => typeError
            end
        | None => generic
        end
  | None => generic
  end.

(** The earlier [checkHealth]: the probe runs under the instance's
    default timeout of 30 seconds. *)
Definition timeout : Z := 30000.

Definition checkHealth (net : Network) : M bool :=
  tryCatch
    (response <- (fun log => (push log (GET "/" timeout), get net "/" timeout)) ;;
     status <- getProp (Axios.data response) "status" ;;
     ret (strictEqString status "ok"))
    (fun error => ret false).

(** The earlier [AIServiceClient.analyzeQuotes]: the same two mappings as
    the current one, the instance's 30 seconds timeout, and the inline
    catch block [onError]. *)
Definition client_analyzeQuotes (net : Network) (quotes : list CreateQuoteDto.t)
  : M AnalysisResultDto :=
  tryCatch
    (let payload := {| Payload.quotes := map AIServiceClient.serialize quotes |} in
     response <- (fun log => (push log (POST "/analyze" timeout payload),
                              post net "/analyze" timeout payload)) ;;
     analyses <- mapOrThrow (Upstream.analyses (Axios.data response))
                   AIServiceClient.deserialize ;;
     ret {| analyses := analyses;
            recommendation := Upstream.recommendation (Axios.data response);
            analyzedAt := now net |})
    (fun error => throw (onError error)).

Definition too_many_message : string := "Maximum 10 devis par analyse".

(** The earlier [QuotesService.analyzeQuotes]. *)
Definition analyzeQuotes (net : Network) (quotes : list CreateQuoteDto.t)
  : M AnalysisResultDto :=
  if len quotes <? 2 then
    throw (BadRequestException QuotesService.too_few_message)
  else if len quotes >? 10 then throw (BadRequestException too_many_message)
  else
    result <- client_analyzeQuotes net quotes ;;
    let result :=
      QuotesService.set_analyses result (map adjust (analyses result)) in
    let result :=
      QuotesService.set_analyses result
        (Array_sort byScoreDesc (analyses result)) in
    ret result.

(** The earlier [getAvailableCategories()]. *)
Definition getAvailableCategories : list string :=
  [ "Cloud & Infrastructure";
    "Cybersecurity";
    "Software Development";
    "Data Analytics";
    "IT Support";
    "Networking" ].

End Legacy.

(** ** QuotesController (quotes/quotes.controller.ts) *)

Module QuotesController.

Record HealthReport : Type := mkHealthReport {
  status : string;
  backend : string;
  aiService : bool;
  timestamp : string
}.

Record Categories : Type := mkCategories { categories : list string }.

Section Clock.
(** [Date.prototype.toISOString], applied to the instant read from the
    clock. *)
Variable toISOString : Z -> string.

(** [GET /quotes/health]. *)
Definition checkHealth (net : Network) : M HealthReport :=
  aiHealthy <- AIServiceClient.checkHealth net ;;
  ret {| status := if aiHealthy then "ok" else "degraded";
         backend := "ok";
         aiService := aiHealthy;
         timestamp := toISOString (now net) |}.
End Clock.

(** [POST /quotes/analyze], once the body has passed the validation pipe. *)
Definition analyzeQuotes (net : Network) (quotes : list CreateQuoteDto.t)
  : M AnalysisResultDto :=
  result <- QuotesService.analyzeQuotes net quotes ;;
  ret result.

(** [GET /quotes/categories]. *)
Definition getCategories : Categories :=
  {| categories := QuotesService.getAvailableCategories |}.

(** [GET /quotes/stats]. *)
Definition getStats : QuotesService.AnalysisStats :=
  QuotesService.getAnalysisStats.

End QuotesController.

(** ** Vocabulary of the properties *)

(** *** The specification's reading of the penalty rules *)

(** The penalty of each rule and their sum, as the specification words
    them: 10 for an absent price, 5 for fewer than two strengths, 10 for
    more than three risks. *)
Definition spec_penalty_price (a : QuoteAnalysisDto) : Z :=
  match price a with None => 10 | Some _ => 0 end.
Definition spec_penalty_strengths (a : QuoteAnalysisDto) : Z :=
  if (List.length (strengths a) <? 2)%nat then 5 else 0.
Definition spec_penalty_risks (a : QuoteAnalysisDto) : Z :=
  if (3 <? List.length (risks a))%nat then 10 else 0.
Definition spec_penalty (a : QuoteAnalysisDto) : Z :=
  spec_penalty_price a + spec_penalty_strengths a + spec_penalty_risks a.

(** The notes of the fired rules, in the rule order 1, 2, 3. *)
Definition spec_notes (a : QuoteAnalysisDto) : list string :=
  ((match price a with None => [note_price] | Some _ => [] end)
   ++ (if (List.length (strengths a) <? 2)%nat then [note_strengths] else [])
   ++ (if (3 <? List.length (risks a))%nat then [note_risks] else []))%list.

(** Descending by score: every element is followed only by elements whose
    score is not greater. *)
Definition scoreDescending : list QuoteAnalysisDto -> Prop :=
  StronglySorted (fun a b => score a >= score b).

(** The body sent for a batch. *)
Definition payloadOf (quotes : list CreateQuoteDto.t) : Payload.t :=
  {| Payload.quotes := map AIServiceClient.serialize quotes |}.

(** What the upstream answers to the one POST of [analyzeQuotes]. *)
Definition analyzeReply (net : Network) (quotes : list CreateQuoteDto.t)
  : Exception + Axios.Response Upstream.data :=
  post net "/analyze" AIServiceClient.timeout (payloadOf quotes).

(** What the upstream answers to the probe of [checkHealth]. *)
Definition probeReply (net : Network) : Exception + Axios.Response JsValue :=
  get net "/" 5000.

Definition refusedOrNotFound (e : Axios.AxiosError) : Prop :=
  Axios.code e = Some "ECONNREFUSED" \/ Axios.code e = Some "ENOTFOUND".

Definition timedOut (e : Axios.AxiosError) : Prop :=
  Axios.code e = Some "ECONNABORTED" \/ Axios.code e = Some "ETIMEDOUT".



(** What the handler does to the client's result: adjust each analysis,
    then rank. *)
Definition adjustAndRank (result : AnalysisResultDto) : AnalysisResultDto :=
  {| analyses := rank (map applyBusinessRules (analyses result));
     recommendation := recommendation result;
     analyzedAt := analyzedAt result |}.

Definition inBounds (quotes : list CreateQuoteDto.t) : Prop :=
  2 <= len quotes <= 10.

(** The fields of an analysis that the scoring rules leave alone. *)
Definition sameFrame (a b : QuoteAnalysisDto) : Prop :=
  vendorName a = vendorName b
  /\ price a = price b
  /\ currency a = currency b
  /\ strengths a = strengths b
  /\ weaknesses a = weaknesses b
  /\ risks a = risks b.

(** Two analyses that rank alike and describe the same quote. *)
Definition sameScoreAndFrame (a b : QuoteAnalysisDto) : Prop :=
  score a = score b /\ sameFrame a b.

(** The test [score a == s], used to select the analyses tied at [s]. *)
Definition hasScore (s : Z) (a : QuoteAnalysisDto) : bool := score a =? s.

(** [null] or [undefined]. *)
Definition nullish (v : JsValue) : Prop := v = JsNull \/ v = JsUndefined.

(** ** Concrete inputs *)

Definition example_penalised : QuoteAnalysisDto :=
  {| vendorName := "Acme"; price := None; currency := "EUR";
     strengths := ["a"]; weaknesses := []; risks := ["x"; "y"; "z"; "w"];
     score := 80; scoreReasoning := "Base" |}.

Definition example_negative : QuoteAnalysisDto :=
  {| vendorName := "Acme"; price := Some 100; currency := "EUR";
     strengths := ["a"; "b"]; weaknesses := []; risks := [];
     score := -5; scoreReasoning := "Base" |}.

Definition example_above_scale : QuoteAnalysisDto :=
  {| vendorName := "Acme"; price := Some 100; currency := "EUR";
     strengths := ["a"; "b"; "c"]; weaknesses := []; risks := [];
     score := 200; scoreReasoning := "Base" |}.

Definition example_clean : QuoteAnalysisDto :=
  {| vendorName := "Acme"; price := Some 100; currency := "EUR";
     strengths := ["a"; "b"; "c"]; weaknesses := []; risks := [];
     score := 5; scoreReasoning := "Base" |}.

(** [example_clean] under another vendor name and score. *)
Definition set_vendor (a : QuoteAnalysisDto) (v : string) (s : Z) : QuoteAnalysisDto :=
  {| vendorName := v; price := price a; currency := currency a;
     strengths := strengths a; weaknesses := weaknesses a; risks := risks a;
     score := s; scoreReasoning := scoreReasoning a |}.

Definition quoteA : CreateQuoteDto.t :=
  {| CreateQuoteDto.vendorName := "AWS";
     CreateQuoteDto.content := "Hébergement cloud, 3 ans, support 24/7, 12000 EUR par an.";
     CreateQuoteDto.category := "Cloud & Infrastructure" |}.

Definition quoteB : CreateQuoteDto.t :=
  {| CreateQuoteDto.vendorName := "Azure";
     CreateQuoteDto.content := "Hébergement cloud, 2 ans, support ouvré, prix sur demande.";
     CreateQuoteDto.category := "Cloud & Infrastructure" |}.

Definition upstreamA : Upstream.analysis :=
  {| Upstream.vendor_name := "AWS"; Upstream.price := Some 0;
     Upstream.currency := "EUR";
     Upstream.strengths := ["support"; "durée"]; Upstream.weaknesses := ["prix"];
     Upstream.risks := []; Upstream.score := 70;
     Upstream.score_reasoning := "Offre complète" |}.

Definition upstreamB : Upstream.analysis :=
  {| Upstream.vendor_name := "Azure"; Upstream.price := None;
     Upstream.currency := "EUR";
     Upstream.strengths := ["durée"]; Upstream.weaknesses := [];
     Upstream.risks := ["r1"; "r2"; "r3"; "r4"]; Upstream.score := 80;
     Upstream.score_reasoning := "Offre floue" |}.

Definition replyOk : Axios.Response Upstream.data :=
  Axios.mkResponse 200
    {| Upstream.analyses := Some [upstreamA; upstreamB];
       Upstream.recommendation := "AWS" |}.

Definition errRefused : Axios.AxiosError :=
  {| Axios.code := Some "ECONNREFUSED"; Axios.response := None;
     Axios.errorMessage := "connect ECONNREFUSED 127.0.0.1:8000" |}.

Definition errTimeout : Axios.AxiosError :=
  {| Axios.code := Some "ECONNABORTED"; Axios.response := None;
     Axios.errorMessage := "timeout of 35000ms exceeded" |}.

Definition errRejected : Axios.AxiosError :=
  {| Axios.code := Some "ERR_BAD_REQUEST";
     Axios.response :=
       Some (Axios.mkResponse 422
               (JsObject [("detail", JsString "Devis illisible")]));
     Axios.errorMessage := "Request failed with status code 422" |}.

(** An upstream that is up and healthy. *)
Definition netOk : Network :=
  {| post := fun _ _ _ => inr replyOk;
     get := fun _ _ =>
       inr (Axios.mkResponse 200 (JsObject [("status", JsString "ok")]));
     now := 1700000000 |}.

(** An upstream that is down. *)
Definition netDown : Network :=
  {| post := fun _ _ _ => inl (AxiosErr errRefused);
     get := fun _ _ => inl (AxiosErr errRefused);
     now := 1700000000 |}.

(** An upstream that rejects the batch and reports itself degraded. *)
Definition netRejecting : Network :=
  {| post := fun _ _ _ => inl (AxiosErr errRejected);
     get := fun _ _ =>
       inr (Axios.mkResponse 200 (JsObject [("status", JsString "degraded")]));
     now := 1700000000 |}.

Definition errNotFound : Axios.AxiosError :=
  {| Axios.code := Some "ENOTFOUND"; Axios.response := None;
     Axios.errorMessage := "getaddrinfo ENOTFOUND ai-service" |}.

(** A rejection whose body carries only a [message] field. *)
Definition errRejectedMessage : Axios.AxiosError :=
  {| Axios.code := Some "ERR_BAD_RESPONSE";
     Axios.response :=
       Some (Axios.mkResponse 500
               (JsObject [("message", JsString "Modèle indisponible")]));
     Axios.errorMessage := "Request failed with status code 500" |}.

(** A rejection with a [null] body. *)
Definition errRejectedNoBody : Axios.AxiosError :=
  {| Axios.code := Some "ERR_BAD_RESPONSE";
     Axios.response := Some (Axios.mkResponse 502 JsNull);
     Axios.errorMessage := "Request failed with status code 502" |}.

(** A validation rejection as FastAPI sends it: [detail] is a list of
    objects. *)
Definition errRejectedList : Axios.AxiosError :=
  {| Axios.code := Some "ERR_BAD_REQUEST";
     Axios.response :=
       Some (Axios.mkResponse 422
               (JsObject
                  [("detail",
                    JsArray
                      [JsObject
                         [("loc", JsArray [JsString "body"; JsString "quotes"]);
                          ("msg", JsString "field required");
                          ("type", JsString "value_error.missing")]])]));
     Axios.errorMessage := "Request failed with status code 422" |}.

(** A rejection whose [detail] is an object with an own [toString]
    property, which no template literal can render. *)
Definition errRejectedOpaque : Axios.AxiosError :=
  {| Axios.code := Some "ERR_BAD_REQUEST";
     Axios.response :=
       Some (Axios.mkResponse 400
               (JsObject [("detail", JsObject [("toString", JsNumber 1)])]));
     Axios.errorMessage := "Request failed with status code 400" |}.


(** An upstream that answers the probe with a [null] body. *)
Definition netNullBody : Network :=
  {| post := fun _ _ _ => inl (AxiosErr errRejectedNoBody);
     get := fun _ _ => inr (Axios.mkResponse 200 JsNull);
     now := 1700000000 |}.

(** A rendering of instants for the concrete runs. *)
Definition isoStub (t : Z) : string :=
  if t =? 1700000000 then "2023-11-14T22:13:20.000Z" else "1970-01-01T00:00:00.000Z".

Definition batchTies : list QuoteAnalysisDto :=
  [set_vendor example_clean "A" 5;
   set_vendor example_clean "B" 10;
   set_vendor example_clean "C" 5;
   set_vendor example_clean "D" 7].

(** * Properties *)

(** ** Bridging lemmas between JavaScript tests and their meaning *)

Lemma len_ltb_2 {A : Type} (l : list A) :
  (len l <? 2) = (List.length l <? 2)%nat.
Proof.
  unfold len.
  destruct (Nat.ltb_spec (List.length l) 2);
    [apply Z.ltb_lt | apply Z.ltb_ge]; lia.
Qed.

Lemma len_gtb_3 {A : Type} (l : list A) :
  (len l >? 3) = (3 <? List.length l)%nat.
Proof.
  unfold len. rewrite Z.gtb_ltb.
  destruct (Nat.ltb_spec 3 (List.length l));
    [apply Z.ltb_lt | apply Z.ltb_ge]; lia.
Qed.

(** The three tests decide everything [applyBusinessRules] does. *)
Ltac split_rules a :=
  unfold applyBusinessRules, Legacy.adjust,
    spec_penalty, spec_penalty_price, spec_penalty_strengths,
    spec_penalty_risks, spec_notes;
  rewrite ?len_ltb_2, ?len_gtb_3;
  destruct (price a); cbn [isNull];
  destruct (List.length (strengths a) <? 2)%nat;
  destruct (3 <? List.length (risks a))%nat;
  cbn.

Lemma applyBusinessRules_score (a : QuoteAnalysisDto) :
  score (applyBusinessRules a) = Z.max 0 (score a - spec_penalty a).
Proof. split_rules a; f_equal; lia. Qed.

Lemma applyBusinessRules_reasoning (a : QuoteAnalysisDto) :
  scoreReasoning (applyBusinessRules a)
  = match spec_notes a with
    | [] => scoreReasoning a
    | _ => scoreReasoning a ++ separator ++ join (spec_notes a) delimiter
    end.
Proof. split_rules a; reflexivity. Qed.

Lemma spec_penalty_notes (a : QuoteAnalysisDto) :
  spec_penalty a > 0 <-> spec_notes a <> [].
Proof. split_rules a; split; intros; (lia || congruence). Qed.

Lemma spec_penalty_nonneg (a : QuoteAnalysisDto) : 0 <= spec_penalty a.
Proof. split_rules a; lia. Qed.

Lemma no_rule_fires (a : QuoteAnalysisDto) :
  price a <> None -> len (strengths a) >= 2 -> len (risks a) <= 3 ->
  spec_penalty a = 0 /\ spec_notes a = [].
Proof.
  intros Hp Hs Hr.
  unfold spec_penalty, spec_penalty_price, spec_penalty_strengths,
    spec_penalty_risks, spec_notes.
  rewrite <- len_ltb_2, <- len_gtb_3.
  destruct (price a); [| congruence].
  assert (E1 : (len (strengths a) <? 2) = false) by (apply Z.ltb_ge; lia).
  assert (E2 : (len (risks a) >? 3) = false)
    by (rewrite Z.gtb_ltb; apply Z.ltb_ge; lia).
  rewrite E1, E2. split; reflexivity.
Qed.

(** The earlier inline lambda computes the same analysis, up to the
    wording of the separator. *)
Lemma Legacy_adjust_score (a : QuoteAnalysisDto) :
  score (Legacy.adjust a) = score (applyBusinessRules a).
Proof. split_rules a; reflexivity. Qed.

Lemma Legacy_adjust_reasoning (a : QuoteAnalysisDto) :
  scoreReasoning (Legacy.adjust a)
  = match spec_notes a with
    | [] => scoreReasoning a
    | _ => scoreReasoning a ++ Legacy.separator ++ join (spec_notes a) delimiter
    end.
Proof. split_rules a; reflexivity. Qed.

(** ** Scoring rules *)

(** C1: the adjusted score is [max(0, score - p)] for [p] the sum of the
    three independently checked penalties; one note per fired rule; when
    [p > 0] the reasoning is the original text, the separator and the
    fired notes joined by the delimiter in rule order; the analysis with
    no price, one strength, four risks and raw score 80 gets 55 and the
    three notes in order. *)
Theorem adjust_score_and_reasoning (a : QuoteAnalysisDto) :
  score (applyBusinessRules a) = Z.max 0 (score a - spec_penalty a)
  /\ len (spec_notes a)
     = (if isNull (price a) then 1 else 0)
       + (if len (strengths a) <? 2 then 1 else 0)
       + (if len (risks a) >? 3 then 1 else 0)
  /\ (spec_penalty a > 0 ->
      scoreReasoning (applyBusinessRules a)
      = scoreReasoning a ++ separator ++ join (spec_notes a) delimiter)
  /\ (price a = None -> len (strengths a) = 1 -> len (risks a) = 4 ->
      score a = 80 ->
      score (applyBusinessRules a) = 55
      /\ scoreReasoning (applyBusinessRules a)
         = scoreReasoning a ++ separator
           ++ note_price ++ delimiter ++ note_strengths ++ delimiter ++ note_risks).
Proof.
  split; [apply applyBusinessRules_score |].
  split; [split_rules a; reflexivity |].
  split.
  - intros Hp. rewrite applyBusinessRules_reasoning.
    apply spec_penalty_notes in Hp.
    destruct (spec_notes a); [congruence | reflexivity].
  - intros Hp Hs Hr H80.
    rewrite applyBusinessRules_score, applyBusinessRules_reasoning.
    unfold spec_penalty, spec_penalty_price, spec_penalty_strengths,
      spec_penalty_risks, spec_notes.
    rewrite <- len_ltb_2, <- len_gtb_3, Hp, Hs, Hr, H80.
    split; reflexivity.
Qed.

Lemma adjust_score_and_reasoning_witness :
  score (applyBusinessRules example_penalised) = 55
  /\ scoreReasoning (applyBusinessRules example_penalised)
     = "Base | Ajustements métier : Prix non spécifié (-10 pts), Peu d'avantages identifiés (-5 pts), Nombreux risques détectés (-10 pts)".
Proof.
  destruct (adjust_score_and_reasoning example_penalised) as (_ & _ & Hr & Hex).
  assert (Hp : spec_penalty example_penalised > 0) by (vm_compute; reflexivity).
  pose proof (Hr Hp) as _.
  exact (Hex eq_refl eq_refl eq_refl eq_refl).
Defined.

(** C2, as stated, fails: on the analysis with a price, two strengths, no
    risk and raw score -5 no rule fires, yet the score returned is 0. *)
Lemma adjust_unchanged_counterexample :
  price example_negative <> None
  /\ len (strengths example_negative) >= 2
  /\ len (risks example_negative) <= 3
  /\ score example_negative = -5
  /\ score (applyBusinessRules example_negative) = 0
  /\ ~ (score (applyBusinessRules example_negative) = score example_negative
        /\ scoreReasoning (applyBusinessRules example_negative)
           = scoreReasoning example_negative).
Proof.
  repeat split; try (vm_compute; discriminate).
  intros [H _]. vm_compute in H. discriminate.
Qed.

(** C2, amended: with a price, at least two strengths and at most three
    risks the reasoning is returned unchanged, and the score is returned
    unchanged when the raw score is not negative. *)
Theorem adjust_unchanged (a : QuoteAnalysisDto) :
  price a <> None -> len (strengths a) >= 2 -> len (risks a) <= 3 ->
  scoreReasoning (applyBusinessRules a) = scoreReasoning a
  /\ (0 <= score a -> score (applyBusinessRules a) = score a).
Proof.
  intros Hp Hs Hr.
  destruct (no_rule_fires a Hp Hs Hr) as [E0 EN].
  rewrite applyBusinessRules_score, applyBusinessRules_reasoning, E0, EN.
  split; [reflexivity | lia].
Qed.

Lemma adjust_unchanged_witness :
  scoreReasoning (applyBusinessRules example_clean) = "Base"
  /\ score (applyBusinessRules example_clean) = 5.
Proof.
  assert (Hp : price example_clean <> None) by discriminate.
  assert (Hs : len (strengths example_clean) >= 2) by (vm_compute; discriminate).
  assert (Hr : len (risks example_clean) <= 3) by (vm_compute; discriminate).
  destruct (adjust_unchanged example_clean Hp Hs Hr) as [H1 H2].
  split; [exact H1 | apply H2; vm_compute; discriminate].
Defined.

(** C6, as stated, fails: there is no ceiling clamp, so the raw score 200
    of an analysis on which no rule fires is returned as 200. *)
Lemma adjust_range_counterexample :
  score (applyBusinessRules example_above_scale) = 200
  /\ ~ (0 <= score (applyBusinessRules example_above_scale) <= 100).
Proof.
  split; [reflexivity |].
  intros [_ H]. vm_compute in H. apply H. reflexivity.
Qed.

(** C6, amended: the adjusted score is never negative, whatever the raw
    score, and it is at most 100 whenever the raw score is at most 100. *)
Theorem adjust_range (a : QuoteAnalysisDto) :
  0 <= score (applyBusinessRules a)
  /\ (score a <= 100 -> score (applyBusinessRules a) <= 100).
Proof.
  rewrite applyBusinessRules_score.
  pose proof (spec_penalty_nonneg a). split; lia.
Qed.

Lemma adjust_range_witness :
  0 <= score (applyBusinessRules example_penalised) <= 100.
Proof.
  destruct (adjust_range example_penalised) as [H0 H100].
  split; [exact H0 | apply H100; vm_compute; discriminate].
Defined.

(** C9: only the score and the reasoning are rewritten; the vendor name,
    price, currency, strengths, weaknesses and risks are those of the
    argument. *)
Theorem adjust_frame (a : QuoteAnalysisDto) :
  vendorName (applyBusinessRules a) = vendorName a
  /\ price (applyBusinessRules a) = price a
  /\ currency (applyBusinessRules a) = currency a
  /\ strengths (applyBusinessRules a) = strengths a
  /\ weaknesses (applyBusinessRules a) = weaknesses a
  /\ risks (applyBusinessRules a) = risks a.
Proof.
  unfold applyBusinessRules.
  destruct (isNull (price a)), (len (strengths a) <? 2), (len (risks a) >? 3);
    cbn; repeat split.
Qed.

Lemma Legacy_adjust_frame (a : QuoteAnalysisDto) :
  vendorName (Legacy.adjust a) = vendorName a
  /\ price (Legacy.adjust a) = price a
  /\ currency (Legacy.adjust a) = currency a
  /\ strengths (Legacy.adjust a) = strengths a
  /\ weaknesses (Legacy.adjust a) = weaknesses a
  /\ risks (Legacy.adjust a) = risks a.
Proof.
  unfold Legacy.adjust.
  destruct (isNull (price a)), (len (strengths a) <? 2), (len (risks a) >? 3);
    cbn; repeat split.
Qed.

(** C10: the floor clamp does not depend on a rule having fired: with a
    price, at least two strengths, at most three risks and a negative raw
    score, the adjusted score is 0, hence differs from the raw score,
    while the reasoning is untouched. *)
Theorem adjust_clamp_without_penalty (a : QuoteAnalysisDto) :
  price a <> None -> len (strengths a) >= 2 -> len (risks a) <= 3 ->
  score a < 0 ->
  score (applyBusinessRules a) = 0
  /\ score (applyBusinessRules a) <> score a
  /\ scoreReasoning (applyBusinessRules a) = scoreReasoning a.
Proof.
  intros Hp Hs Hr Hneg.
  destruct (no_rule_fires a Hp Hs Hr) as [E0 EN].
  rewrite applyBusinessRules_score, applyBusinessRules_reasoning, E0, EN.
  repeat split; lia.
Qed.

Lemma adjust_clamp_without_penalty_witness :
  score example_negative = -5
  /\ score (applyBusinessRules example_negative) = 0
  /\ scoreReasoning (applyBusinessRules example_negative) = "Base".
Proof.
  assert (Hp : price example_negative <> None) by discriminate.
  assert (Hs : len (strengths example_negative) >= 2) by (vm_compute; discriminate).
  assert (Hr : len (risks example_negative) <= 3) by (vm_compute; discriminate).
  assert (Hn : score example_negative < 0) by reflexivity.
  destruct (adjust_clamp_without_penalty example_negative Hp Hs Hr Hn)
    as (H0 & _ & Hrs).
  split; [reflexivity | split; assumption].
Defined.

(** ** Ranking *)

Section ArraySortFacts.
Context {A : Type}.
Variable compareFn : A -> A -> Z.

Lemma sort_insert_perm (x : A) (l : list A) :
  Permutation (sort_insert compareFn x l) (x :: l).
Proof.
  induction l as [| y ys IH]; cbn.
  - apply Permutation_refl.
  - destruct (compareFn x y <=? 0).
    + apply Permutation_refl.
    + eapply perm_trans; [apply perm_skip, IH | apply perm_swap].
Qed.

Lemma Array_sort_perm (l : list A) : Permutation (Array_sort compareFn l) l.
Proof.
  induction l as [| x xs IH]; cbn.
  - apply perm_nil.
  - eapply perm_trans; [apply sort_insert_perm | apply perm_skip, IH].
Qed.

Lemma sort_insert_Forall (P : A -> Prop) (x : A) (l : list A) :
  P x -> Forall P l -> Forall P (sort_insert compareFn x l).
Proof.
  intros Hx Hl.
  eapply Permutation_Forall; [apply Permutation_sym, sort_insert_perm |].
  constructor; assumption.
Qed.
End ArraySortFacts.

Lemma sort_insert_descending (x : QuoteAnalysisDto) (l : list QuoteAnalysisDto) :
  scoreDescending l -> scoreDescending (sort_insert byScoreDesc x l).
Proof.
  unfold scoreDescending.
  induction 1 as [| y ys Hsorted IH Hall]; cbn.
  - repeat constructor.
  - unfold byScoreDesc at 1.
    destruct (Z.leb_spec (score y - score x) 0) as [Hle | Hgt].
    + constructor; [constructor; assumption |].
      constructor; [lia |].
      eapply Forall_impl; [| exact Hall]. cbn. intros b Hb. lia.
    + constructor; [exact IH |].
      apply sort_insert_Forall; [lia | exact Hall].
  Qed.

Lemma rank_descending (batch : list QuoteAnalysisDto) : scoreDescending (rank batch).
Proof.
  unfold rank.
  induction batch as [| x xs IH]; cbn.
  - constructor.
  - apply sort_insert_descending, IH.
Qed.

(** Ties keep their input order: a batch that is already descending is
    returned as it is. *)
Lemma rank_stable_on_sorted (batch : list QuoteAnalysisDto) :
  scoreDescending batch -> rank batch = batch.
Proof.
  unfold rank, scoreDescending.
  induction 1 as [| x xs Hsorted IH Hall]; cbn; [reflexivity |].
  rewrite IH. destruct xs as [| y ys]; cbn; [reflexivity |].
  apply Forall_inv in Hall. unfold byScoreDesc.
  destruct (Z.leb_spec (score y - score x) 0); [reflexivity | lia].
Qed.

(** C5: ranking permutes the batch (nothing added, dropped or modified)
    and its output is in descending order of score. *)
Theorem rank_permutation_sorted (batch : list QuoteAnalysisDto) :
  Permutation (rank batch) batch
  /\ StronglySorted (fun a b => score a >= score b) (rank batch).
Proof.
  split.
  - apply Array_sort_perm.
  - apply rank_descending.
Qed.

(** ** The upstream client *)

Lemma codeIs_spec (e : Axios.AxiosError) (c : string) :
  codeIs e c = true <-> Axios.code e = Some c.
Proof.
  unfold codeIs. destruct (Axios.code e) as [s |].
  - rewrite String.eqb_eq. split; congruence.
  - split; discriminate.
Qed.

Lemma refused_test (e : Axios.AxiosError) :
  codeIs e "ECONNREFUSED" || codeIs e "ENOTFOUND" = true <-> refusedOrNotFound e.
Proof. rewrite orb_true_iff, !codeIs_spec. reflexivity. Qed.

Lemma timeout_test (e : Axios.AxiosError) :
  codeIs e "ECONNABORTED" || codeIs e "ETIMEDOUT" = true <-> timedOut e.
Proof. rewrite orb_true_iff, !codeIs_spec. reflexivity. Qed.


Lemma orJs_truthy (a b : JsValue) : truthy a = true -> orJs a b = a.
Proof. intros H. unfold orJs. now rewrite H. Qed.

Lemma orJs_falsy (a b : JsValue) : truthy a = false -> orJs a b = b.
Proof. intros H. unfold orJs. now rewrite H. Qed.

(** The value embedded in the message of a rejection is the detail
    itself as soon as the detail is truthy. *)
Lemma aiErrorMessage_detail (data : JsValue) :
  truthy (optGet data "detail") = true ->
  AIServiceClient.aiErrorMessage data = optGet data "detail".
Proof.
  intros H. unfold AIServiceClient.aiErrorMessage.
  rewrite (orJs_truthy _ (optGet data "message") H).
  apply orJs_truthy, H.
Qed.

(** [handleError] never returns: whatever it is given, it throws an
    [HttpException], or the [TypeError] of a value that cannot be
    rendered. *)
Lemma handleError_throws (error : Exception) :
  (exists response status,
     AIServiceClient.handleError error = HttpException response status)
  \/ AIServiceClient.handleError error = cannot_convert.
Proof.
  unfold AIServiceClient.handleError.
  destruct (isAxiosError error) as [e |]; [| eauto].
  destruct (codeIs e "ECONNREFUSED" || codeIs e "ENOTFOUND"); [eauto |].
  destruct (codeIs e "ECONNABORTED" || codeIs e "ETIMEDOUT"); [eauto |].
  destruct (Axios.response e) as [r |]; [| eauto].
  destruct (toStringJs (AIServiceClient.aiErrorMessage (Axios.data r))); eauto.
Qed.

(** Decide the two code tests of [handleError] from what is known about
    the error code. *)
Ltac decide_code_tests e :=
  let E := fresh "E" in
  destruct (codeIs e "ECONNREFUSED" || codeIs e "ENOTFOUND") eqn:E;
  [ apply refused_test in E; try contradiction
  | let E' := fresh "E" in
    destruct (codeIs e "ECONNABORTED" || codeIs e "ETIMEDOUT") eqn:E';
    [ apply timeout_test in E'; try contradiction | ] ].



Lemma handleError_rejected (e : Axios.AxiosError) (r : Axios.Response JsValue) :
  ~ refusedOrNotFound e -> ~ timedOut e -> Axios.response e = Some r ->
  AIServiceClient.handleError (AxiosErr e)
  = match toStringJs (AIServiceClient.aiErrorMessage (Axios.data r)) with
    | Some text =>
        HttpException
          (ObjectResponse (Axios.status r)
             (AIServiceClient.rejected_prefix ++ text) "AI Service Error")
          (Axios.status r)
    | None => cannot_convert
    end.
Proof.
  intros Hr Ht Hresp. unfold AIServiceClient.handleError. cbn [isAxiosError].
  decide_code_tests e. rewrite Hresp. reflexivity.
Qed.



(** The earlier catch block, case by case. *)
Lemma Legacy_onError_refused (e : Axios.AxiosError) :
  Axios.code e = Some "ECONNREFUSED" ->
  Legacy.onError (AxiosErr e)
  = HttpException
      (TextResponse "Le service IA est indisponible. Veuillez réessayer plus tard.")
      503.
Proof.
  intros H. unfold Legacy.onError. cbn [isAxiosError].
  apply codeIs_spec in H. rewrite H. reflexivity.
Qed.

Lemma Legacy_onError_response (e : Axios.AxiosError) :
  Axios.code e <> Some "ECONNREFUSED" ->
  Legacy.onError (AxiosErr e)
  = match Axios.response e with
    | Some r =>
        match member (Axios.data r) "detail" with
        | inr detail =>
            match toStringJs (orJs detail (JsString (Axios.errorMessage e))) with
            | Some text =>
                HttpException (TextResponse ("Erreur du service IA : " ++ text))
                  (Axios.status r)
            | None => cannot_convert
            end
        | inl typeError => typeError
        end
    | None =>
        HttpException (TextResponse "Erreur lors de l'analyse des devis") 500
    end.
Proof.
  intros Hc. unfold Legacy.onError. cbn [isAxiosError].
  destruct (codeIs e "ECONNREFUSED") eqn:E;
    [apply codeIs_spec in E; contradiction | reflexivity].
Qed.



Lemma Legacy_client_analyzeQuotes_eq (net : Network) (quotes : list CreateQuoteDto.t)
      (log : list Request) :
  Legacy.client_analyzeQuotes net quotes log
  = ((log ++ [POST "/analyze" 30000 (payloadOf quotes)])%list,
     match post net "/analyze" 30000 (payloadOf quotes) with
     | inl err => inl (Legacy.onError err)
     | inr response =>
         match Upstream.analyses (Axios.data response) with
         | Some l =>
             inr {| analyses := map AIServiceClient.deserialize l;
                    recommendation := Upstream.recommendation (Axios.data response);
                    analyzedAt := now net |}
         | None =>
             inl (Legacy.onError (TypeError "Cannot read properties of undefined"))
         end
     end).
Proof.
  unfold Legacy.client_analyzeQuotes, tryCatch, bind, payloadOf, push,
    Legacy.timeout.
  destruct (post net "/analyze" 30000 _) as [err | response]; [reflexivity |].
  destruct (Upstream.analyses (Axios.data response)); reflexivity.
Qed.

(** The whole of [AIServiceClient.analyzeQuotes] in one equation: one
    POST is logged, and the outcome is decided by the reply. *)
Lemma client_analyzeQuotes_eq (net : Network) (quotes : list CreateQuoteDto.t)
      (log : list Request) :
  AIServiceClient.analyzeQuotes net quotes log
  = (push log (POST "/analyze" AIServiceClient.timeout (payloadOf quotes)),
     match analyzeReply net quotes with
     | inl err => inl (AIServiceClient.handleError err)
     | inr response =>
         match Upstream.analyses (Axios.data response) with
         | Some l =>
             inr {| analyses := map AIServiceClient.deserialize l;
                    recommendation := Upstream.recommendation (Axios.data response);
                    analyzedAt := now net |}
         | None =>
             inl (AIServiceClient.handleError
                    (TypeError "Cannot read properties of undefined"))
         end
     end).
Proof.
  unfold AIServiceClient.analyzeQuotes, tryCatch, bind,
    AIServiceClient.client_post, analyzeReply, payloadOf.
  destruct (post net "/analyze" AIServiceClient.timeout _) as [err | response];
    [reflexivity |].
  destruct (Upstream.analyses (Axios.data response)); reflexivity.
Qed.



(** C8: on a successful reply the result holds one analysis per upstream
    analysis, in the same positions, with the price as received (absent
    stays absent, zero stays zero) and the strengths, weaknesses and
    risks lists as received. *)
Theorem deserialize_preserves (net : Network) (quotes : list CreateQuoteDto.t)
        (log : list Request) (reply : Axios.Response Upstream.data)
        (l : list Upstream.analysis) :
  analyzeReply net quotes = inr reply ->
  Upstream.analyses (Axios.data reply) = Some l ->
  exists result,
    snd (AIServiceClient.analyzeQuotes net quotes log) = inr result
    /\ List.length (analyses result) = List.length l
    /\ forall i u, nth_error l i = Some u ->
         exists a, nth_error (analyses result) i = Some a
           /\ price a = Upstream.price u
           /\ (price a = None <-> Upstream.price u = None)
           /\ (price a = Some 0 <-> Upstream.price u = Some 0)
           /\ strengths a = Upstream.strengths u
           /\ weaknesses a = Upstream.weaknesses u
           /\ risks a = Upstream.risks u.
Proof.
  intros Hreply Hl. rewrite client_analyzeQuotes_eq, Hreply, Hl. cbn [snd].
  eexists. split; [reflexivity |]. cbn [analyses].
  split; [apply length_map |].
  intros i u Hu. exists (AIServiceClient.deserialize u).
  split; [now apply map_nth_error |].
  cbn. repeat split; auto.
Qed.

(** C7: [checkHealth] always returns a boolean; it is [false] when the
    probe throws (a timeout included) and [true] exactly when the probe
    succeeds with a body whose [status] field is the string "ok". *)
Theorem checkHealth_boolean (net : Network) (log : list Request) :
  exists b,
    snd (AIServiceClient.checkHealth net log) = inr b
    /\ (forall err, probeReply net = inl err -> b = false)
    /\ (b = true <->
        exists reply props,
          probeReply net = inr reply
          /\ Axios.data reply = JsObject props
          /\ lookupProp props "status" = JsString "ok").
Proof.
  unfold AIServiceClient.checkHealth, tryCatch, bind,
    AIServiceClient.client_get, probeReply.
  destruct (get net "/" 5000) as [err | reply]; cbn.
  - exists false. repeat split; try discriminate.
    intros (reply & props & H & _). discriminate.
  - destruct (Axios.data reply) as [| | b | n | s | items | props] eqn:E; cbn;
      try (exists false; repeat split; try discriminate;
           intros (reply' & props' & H & H' & _);
           inversion H; subst reply'; congruence).
    exists (strictEqString (lookupProp props "status") "ok").
    repeat split; try discriminate.
    + intros H. exists reply, props. repeat split; auto.
      destruct (lookupProp props "status"); cbn in H; try discriminate.
      apply String.eqb_eq in H. now subst.
    + intros (reply' & props' & H & H' & Hok).
      inversion H; subst reply'. rewrite E in H'. inversion H'; subst props'.
      rewrite Hok. reflexivity.
Qed.

(** ** The request handler *)

Lemma service_analyzeQuotes_rejected (net : Network) (quotes : list CreateQuoteDto.t)
      (log : list Request) :
  len quotes < 2 \/ len quotes > 10 ->
  exists m, QuotesService.analyzeQuotes net quotes log
            = (log, inl (BadRequestException m)).
Proof.
  intros H. unfold QuotesService.analyzeQuotes.
  destruct (Z.ltb_spec (len quotes) 2) as [Hlt | Hge].
  - eexists. reflexivity.
  - rewrite Z.gtb_ltb. destruct (Z.ltb_spec 10 (len quotes)) as [Hgt | Hle].
    + eexists. reflexivity.
    + lia.
Qed.

Lemma service_analyzeQuotes_accepted (net : Network) (quotes : list CreateQuoteDto.t)
      (log : list Request) :
  inBounds quotes ->
  QuotesService.analyzeQuotes net quotes log
  = (fst (AIServiceClient.analyzeQuotes net quotes log),
     match snd (AIServiceClient.analyzeQuotes net quotes log) with
     | inl err => inl err
     | inr result => inr (adjustAndRank result)
     end).
Proof.
  intros [Hlo Hhi]. unfold QuotesService.analyzeQuotes.
  destruct (Z.ltb_spec (len quotes) 2) as [Hlt | _]; [lia |].
  rewrite Z.gtb_ltb. destruct (Z.ltb_spec 10 (len quotes)) as [Hgt | _]; [lia |].
  unfold bind.
  destruct (AIServiceClient.analyzeQuotes net quotes log) as [log' [err | result]];
    reflexivity.
Qed.

Lemma client_never_bad_request (net : Network) (quotes : list CreateQuoteDto.t)
      (log : list Request) (m : string) :
  snd (AIServiceClient.analyzeQuotes net quotes log) <> inl (BadRequestException m).
Proof.
  rewrite client_analyzeQuotes_eq. cbn [snd].
  destruct (analyzeReply net quotes) as [err | reply].
  - destruct (handleError_throws err) as [(r & s & ->) | ->]; discriminate.
  - destruct (Upstream.analyses (Axios.data reply)); discriminate.
Qed.

(** C3: the handler raises a [BadRequestException] exactly when the batch
    has fewer than 2 or more than 10 submissions, and then sends nothing;
    a batch within the bounds, 2 and 10 included, passes validation and
    the POST to the upstream is sent. *)
Theorem analyzeQuotes_batch_bounds (net : Network) (quotes : list CreateQuoteDto.t)
        (log : list Request) :
  ((exists m, snd (QuotesService.analyzeQuotes net quotes log)
              = inl (BadRequestException m))
   <-> (len quotes < 2 \/ len quotes > 10))
  /\ (len quotes < 2 \/ len quotes > 10 ->
      fst (QuotesService.analyzeQuotes net quotes log) = log)
  /\ (2 <= len quotes <= 10 ->
      fst (QuotesService.analyzeQuotes net quotes log)
      = push log (POST "/analyze" 35000 (payloadOf quotes))
      /\ forall m, snd (QuotesService.analyzeQuotes net quotes log)
                   <> inl (BadRequestException m)).
Proof.
  assert (Hacc : inBounds quotes ->
                 fst (QuotesService.analyzeQuotes net quotes log)
                 = push log (POST "/analyze" 35000 (payloadOf quotes))
                 /\ forall m, snd (QuotesService.analyzeQuotes net quotes log)
                              <> inl (BadRequestException m)).
  { intros Hin. rewrite (service_analyzeQuotes_accepted net quotes log Hin).
    cbn [fst snd]. split.
    - rewrite client_analyzeQuotes_eq. reflexivity.
    - intros m H.
      destruct (snd (AIServiceClient.analyzeQuotes net quotes log)) as [err | r] eqn:E;
        [| discriminate].
      inversion H; subst err.
      exact (client_never_bad_request net quotes log m E). }
  split; [split |].
  - intros [m Hm].
    destruct (Z.lt_ge_cases (len quotes) 2) as [Hlt | Hge]; [now left |].
    destruct (Z.le_gt_cases (len quotes) 10) as [Hle | Hgt]; [| right; lia].
    exfalso. destruct Hacc as [_ Hno]; [split; lia |].
    exact (Hno m Hm).
  - intros H.
    destruct (service_analyzeQuotes_rejected net quotes log H) as [m ->].
    exists m. reflexivity.
  - split.
    + intros H.
      destruct (service_analyzeQuotes_rejected net quotes log H) as [m ->].
      reflexivity.
    + intros H. apply Hacc. unfold inBounds. lia.
Qed.

(** On success the handler returns the upstream analyses, deserialised,
    adjusted and ranked. *)
Lemma service_analyzeQuotes_success (net : Network) (quotes : list CreateQuoteDto.t)
      (log : list Request) (reply : Axios.Response Upstream.data)
      (l : list Upstream.analysis) :
  inBounds quotes ->
  analyzeReply net quotes = inr reply ->
  Upstream.analyses (Axios.data reply) = Some l ->
  exists result,
    snd (QuotesService.analyzeQuotes net quotes log) = inr result
    /\ analyses result
       = rank (map applyBusinessRules (map AIServiceClient.deserialize l))
    /\ Permutation (analyses result)
         (map applyBusinessRules (map AIServiceClient.deserialize l))
    /\ scoreDescending (analyses result).
Proof.
  intros Hin Hreply Hl.
  rewrite (service_analyzeQuotes_accepted net quotes log Hin).
  rewrite client_analyzeQuotes_eq, Hreply, Hl. cbn [fst snd].
  eexists. split; [reflexivity |]. cbn [adjustAndRank analyses].
  split; [reflexivity |]. split; [apply Array_sort_perm | apply rank_descending].
Qed.

(** ** The earlier health probe *)

Lemma Legacy_checkHealth_boolean (net : Network) (log : list Request) :
  exists b, snd (Legacy.checkHealth net log) = inr b
    /\ (forall err, get net "/" Legacy.timeout = inl err -> b = false).
Proof.
  unfold Legacy.checkHealth, tryCatch, bind.
  destruct (get net "/" Legacy.timeout) as [err | reply]; cbn.
  - exists false. split; [reflexivity | reflexivity].
  - destruct (Axios.data reply); cbn; eexists; (split; [reflexivity | discriminate]).
Qed.

(** ** Concrete runs *)

Example run_service_ok :
  outcome (QuotesService.analyzeQuotes netOk [quoteA; quoteB])
  = inr {| analyses :=
             [ {| vendorName := "AWS"; price := Some 0; currency := "EUR";
                  strengths := ["support"; "durée"]; weaknesses := ["prix"];
                  risks := []; score := 70; scoreReasoning := "Offre complète" |};
               {| vendorName := "Azure"; price := None; currency := "EUR";
                  strengths := ["durée"]; weaknesses := [];
                  risks := ["r1"; "r2"; "r3"; "r4"]; score := 55;
                  scoreReasoning :=
                    "Offre floue | Ajustements métier : Prix non spécifié (-10 pts), Peu d'avantages identifiés (-5 pts), Nombreux risques détectés (-10 pts)" |} ];
           recommendation := "AWS";
           analyzedAt := 1700000000 |}.
Proof. reflexivity. Qed.

Example run_service_one_quote :
  run (QuotesService.analyzeQuotes netOk [quoteA])
  = ([], inl (BadRequestException QuotesService.too_few_message)).
Proof. reflexivity. Qed.

Example run_service_eleven_quotes :
  run (QuotesService.analyzeQuotes netOk (repeat quoteA 11))
  = ([], inl (BadRequestException QuotesService.too_many_message)).
Proof. reflexivity. Qed.

Example run_service_ten_quotes :
  requests (QuotesService.analyzeQuotes netOk (repeat quoteA 10))
  = [POST "/analyze" 35000 (payloadOf (repeat quoteA 10))].
Proof. reflexivity. Qed.

Example run_client_timeout :
  AIServiceClient.handleError (AxiosErr errTimeout)
  = HttpException
      (ObjectResponse 504 AIServiceClient.timeout_message "Gateway Timeout") 504.
Proof. reflexivity. Qed.

Example run_client_rejected :
  outcome (AIServiceClient.analyzeQuotes netRejecting [quoteA; quoteB])
  = inl (HttpException
           (ObjectResponse 422 "Erreur lors de l'analyse : Devis illisible"
              "AI Service Error") 422).
Proof. reflexivity. Qed.

Example run_health :
  outcome (AIServiceClient.checkHealth netOk) = inr true
  /\ outcome (AIServiceClient.checkHealth netDown) = inr false
  /\ outcome (AIServiceClient.checkHealth netRejecting) = inr false.
Proof. repeat split. Qed.

Example run_rank_ties :
  map (fun a => (vendorName a, score a))
    (rank [set_vendor example_clean "A" 5;
           set_vendor example_clean "B" 10;
           set_vendor example_clean "C" 5;
           set_vendor example_clean "D" 7])
  = [("B", 10); ("D", 7); ("A", 5); ("C", 5)].
Proof. reflexivity. Qed.

Lemma analyzeQuotes_batch_bounds_witness :
  requests (QuotesService.analyzeQuotes netOk [quoteA; quoteB])
  = [POST "/analyze" 35000 (payloadOf [quoteA; quoteB])]
  /\ requests (QuotesService.analyzeQuotes netOk [quoteA]) = [].
Proof.
  destruct (analyzeQuotes_batch_bounds netOk [quoteA; quoteB] []) as (_ & _ & Hin).
  destruct (analyzeQuotes_batch_bounds netOk [quoteA] []) as (_ & Hout & _).
  split.
  - apply Hin. vm_compute. split; discriminate.
  - apply Hout. left. reflexivity.
Defined.


Lemma deserialize_preserves_witness :
  exists result,
    outcome (AIServiceClient.analyzeQuotes netOk [quoteA; quoteB]) = inr result
    /\ map price (analyses result) = [Some 0; None].
Proof.
  destruct (deserialize_preserves netOk [quoteA; quoteB] [] replyOk
              [upstreamA; upstreamB] eq_refl eq_refl)
    as (result & Hout & Hlen & Hnth).
  exists result. split; [exact Hout |].
  destruct (Hnth 0%nat upstreamA eq_refl) as (a & Ha & Hpa & _).
  destruct (Hnth 1%nat upstreamB eq_refl) as (b & Hb & Hpb & _).
  destruct (analyses result) as [| x [| y [| z rest]]]; try discriminate.
  cbn in Ha, Hb. inversion Ha; inversion Hb; subst.
  cbn. rewrite Hpa, Hpb. reflexivity.
Defined.

Lemma checkHealth_boolean_witness :
  outcome (AIServiceClient.checkHealth netDown) = inr false.
Proof.
  destruct (checkHealth_boolean netDown []) as (b & Hout & Hfalse & _).
  rewrite <- (Hfalse (AxiosErr errRefused) eq_refl). exact Hout.
Defined.

(** * Further properties of the scoring rules *)

Lemma adjust_frame_fields (a : QuoteAnalysisDto) :
  vendorName (applyBusinessRules a) = vendorName a
  /\ price (applyBusinessRules a) = price a
  /\ currency (applyBusinessRules a) = currency a
  /\ strengths (applyBusinessRules a) = strengths a
  /\ weaknesses (applyBusinessRules a) = weaknesses a
  /\ risks (applyBusinessRules a) = risks a.
Proof.
  unfold applyBusinessRules.
  destruct (isNull (price a)), (len (strengths a) <? 2), (len (risks a) >? 3);
    cbn; repeat split.
Qed.

Lemma append_length (s t : string) :
  String.length (s ++ t) = (String.length s + String.length t)%nat.
Proof. induction s as [| c s IH]; cbn; [reflexivity | now rewrite IH]. Qed.

Lemma append_eq_self (s t : string) : s ++ t = s -> t = "".
Proof.
  intros H. apply (f_equal String.length) in H. rewrite append_length in H.
  destruct t; [reflexivity | cbn in H; lia].
Qed.

Lemma prefix_append (s t : string) : String.prefix s (s ++ t) = true.
Proof.
  induction s as [| c s IH]; cbn.
  - destruct t; reflexivity.
  - destruct (Ascii.ascii_dec c c); [exact IH | contradiction].
Qed.

Lemma prefix_refl (s : string) : String.prefix s s = true.
Proof.
  induction s as [| c s IH]; cbn; [reflexivity |].
  destruct (Ascii.ascii_dec c c); [exact IH | contradiction].
Qed.

(** The rules read only fields that the adjustment leaves alone, so the
    same rules fire on the adjusted analysis. *)
Lemma spec_penalty_adjusted (a : QuoteAnalysisDto) :
  spec_penalty (applyBusinessRules a) = spec_penalty a
  /\ spec_notes (applyBusinessRules a) = spec_notes a.
Proof.
  destruct (adjust_frame_fields a) as (_ & Hp & _ & Hs & _ & Hr).
  unfold spec_penalty, spec_penalty_price, spec_penalty_strengths,
    spec_penalty_risks, spec_notes.
  rewrite Hp, Hs, Hr. split; reflexivity.
Qed.

Lemma spec_penalty_bound (a : QuoteAnalysisDto) : 0 <= spec_penalty a <= 25.
Proof. split_rules a; lia. Qed.

(** Applying the rules a second time subtracts the penalties a second
    time: the method is to be called once per analysis. *)
Theorem adjust_twice_doubles_penalty (a : QuoteAnalysisDto) :
  score (applyBusinessRules (applyBusinessRules a))
  = Z.max 0 (score a - 2 * spec_penalty a).
Proof.
  rewrite applyBusinessRules_score.
  destruct (spec_penalty_adjusted a) as [-> _].
  rewrite applyBusinessRules_score.
  pose proof (spec_penalty_bound a). lia.
Qed.

Lemma notes_nonempty_text (a : QuoteAnalysisDto) :
  separator ++ join (spec_notes a) delimiter <> "".
Proof. unfold separator. cbn. discriminate. Qed.

(** The adjustment is idempotent exactly on the analyses on which no rule
    fires. *)
Theorem adjust_idempotent_iff (a : QuoteAnalysisDto) :
  applyBusinessRules (applyBusinessRules a) = applyBusinessRules a
  <-> spec_penalty a = 0.
Proof.
  split.
  - intros H.
    destruct (Z.eq_dec (spec_penalty a) 0) as [Hz | Hne]; [exact Hz |].
    exfalso.
    assert (Hpos : spec_penalty a > 0)
      by (pose proof (spec_penalty_bound a); lia).
    apply spec_penalty_notes in Hpos.
    apply (f_equal scoreReasoning) in H.
    rewrite (applyBusinessRules_reasoning (applyBusinessRules a)) in H.
    destruct (spec_penalty_adjusted a) as [_ EN]. rewrite EN in H.
    pose proof (notes_nonempty_text a) as Htext.
    destruct (spec_notes a) as [| n ns]; [congruence |].
    apply append_eq_self in H. exact (Htext H).
  - intros Hzero.
    assert (EN : spec_notes a = []).
    { destruct (spec_notes a) eqn:E; [reflexivity |].
      pose proof (proj2 (spec_penalty_notes a)) as Hn.
      rewrite E in Hn.
      assert (Hpos : spec_penalty a > 0) by (apply Hn; discriminate).
      lia. }
    pose proof (applyBusinessRules_score a) as Hs.
    pose proof (applyBusinessRules_reasoning a) as Hr.
    pose proof (applyBusinessRules_score (applyBusinessRules a)) as Hs2.
    pose proof (applyBusinessRules_reasoning (applyBusinessRules a)) as Hr2.
    destruct (spec_penalty_adjusted a) as [EP' EN'].
    rewrite EP', Hzero in Hs2. rewrite EN', EN in Hr2. rewrite Hzero in Hs.
    rewrite EN in Hr.
    destruct (adjust_frame_fields (applyBusinessRules a))
      as (F1 & F2 & F3 & F4 & F5 & F6).
    destruct (applyBusinessRules (applyBusinessRules a)) as [v p c st w r sc sr].
    destruct (applyBusinessRules a) as [v' p' c' st' w' r' sc' sr'].
    cbn in *. subst. f_equal. lia.
Qed.

(** The adjustment never raises a score above [max(0, raw)] and lowers
    it by at most 25 points. *)
Theorem adjust_score_bounds (a : QuoteAnalysisDto) :
  score a - 25 <= score (applyBusinessRules a) <= Z.max 0 (score a).
Proof.
  rewrite applyBusinessRules_score. pose proof (spec_penalty_bound a). lia.
Qed.

(** Between two analyses, a score that is not greater and a penalty that
    is not smaller give an adjusted score that is not greater. *)
Theorem adjust_monotone (a b : QuoteAnalysisDto) :
  score a <= score b -> spec_penalty b <= spec_penalty a ->
  score (applyBusinessRules a) <= score (applyBusinessRules b).
Proof. intros Hs Hp. rewrite !applyBusinessRules_score. lia. Qed.

Lemma adjust_monotone_witness :
  score (applyBusinessRules example_negative)
  <= score (applyBusinessRules example_clean).
Proof.
  apply (adjust_monotone example_negative example_clean).
  - vm_compute. discriminate.
  - vm_compute. discriminate.
Defined.

(** The original reasoning is never rewritten: it is a prefix of the
    returned reasoning, in the current method and in the earlier lambda. *)
Theorem adjust_keeps_reasoning_prefix (a : QuoteAnalysisDto) :
  String.prefix (scoreReasoning a) (scoreReasoning (applyBusinessRules a)) = true
  /\ String.prefix (scoreReasoning a) (scoreReasoning (Legacy.adjust a)) = true.
Proof.
  rewrite applyBusinessRules_reasoning, Legacy_adjust_reasoning.
  destruct (spec_notes a); split;
    (apply prefix_refl || apply prefix_append).
Qed.

Lemma Legacy_adjust_related (a : QuoteAnalysisDto) :
  sameScoreAndFrame (Legacy.adjust a) (applyBusinessRules a).
Proof.
  unfold sameScoreAndFrame, sameFrame.
  split; [apply Legacy_adjust_score |].
  destruct (Legacy_adjust_frame a) as (L1 & L2 & L3 & L4 & L5 & L6).
  destruct (adjust_frame_fields a) as (N1 & N2 & N3 & N4 & N5 & N6).
  repeat split; congruence.
Qed.

(** The earlier lambda and the current method return the same score and
    the same untouched fields; they return the same analysis when no rule
    fires, and otherwise differ only in the separator in front of the
    notes. *)
Theorem Legacy_adjust_agrees (a : QuoteAnalysisDto) :
  sameScoreAndFrame (Legacy.adjust a) (applyBusinessRules a)
  /\ (spec_penalty a = 0 -> Legacy.adjust a = applyBusinessRules a)
  /\ (spec_penalty a > 0 ->
      scoreReasoning (Legacy.adjust a)
      = scoreReasoning a ++ Legacy.separator ++ join (spec_notes a) delimiter
      /\ scoreReasoning (applyBusinessRules a)
         = scoreReasoning a ++ separator ++ join (spec_notes a) delimiter).
Proof.
  split; [| split].
  - apply Legacy_adjust_related.
  - split_rules a; intros H; try reflexivity; lia.
  - intros Hp. rewrite Legacy_adjust_reasoning, applyBusinessRules_reasoning.
    apply spec_penalty_notes in Hp.
    destruct (spec_notes a); [congruence | split; reflexivity].
Qed.

Lemma Legacy_adjust_agrees_witness :
  Legacy.adjust example_clean = applyBusinessRules example_clean
  /\ scoreReasoning (Legacy.adjust example_penalised)
     = "Base | Ajustements : Prix non spécifié (-10 pts), Peu d'avantages identifiés (-5 pts), Nombreux risques détectés (-10 pts)".
Proof.
  destruct (Legacy_adjust_agrees example_clean) as (_ & Hsame & _).
  destruct (Legacy_adjust_agrees example_penalised) as (_ & _ & Hdiff).
  split.
  - apply Hsame. reflexivity.
  - assert (Hp : spec_penalty example_penalised > 0) by reflexivity.
    exact (proj1 (Hdiff Hp)).
Defined.

(** * Further properties of the ranking *)

Lemma sort_insert_filter (s : Z) (x : QuoteAnalysisDto) (l : list QuoteAnalysisDto) :
  filter (hasScore s) (sort_insert byScoreDesc x l) = filter (hasScore s) (x :: l).
Proof.
  induction l as [| y ys IH]; [reflexivity |].
  cbn [sort_insert]. unfold byScoreDesc at 1.
  destruct (Z.leb_spec (score y - score x) 0) as [Hle | Hgt]; [reflexivity |].
  cbn [filter] in *. rewrite IH. unfold hasScore.
  destruct (Z.eqb_spec (score x) s), (Z.eqb_spec (score y) s);
    try reflexivity; lia.
Qed.

(** The sort is stable: the analyses tied at any score come out in the
    order in which they went in. *)
Theorem rank_stable (s : Z) (batch : list QuoteAnalysisDto) :
  filter (hasScore s) (rank batch) = filter (hasScore s) batch.
Proof.
  unfold rank. induction batch as [| x xs IH]; [reflexivity |].
  cbn [Array_sort]. rewrite sort_insert_filter. cbn [filter].
  now rewrite IH.
Qed.

(** A batch is returned as it is exactly when it is already in
    descending order; in particular ranking twice changes nothing. *)
Theorem rank_fixpoint_iff (batch : list QuoteAnalysisDto) :
  (rank batch = batch <-> scoreDescending batch)
  /\ rank (rank batch) = rank batch.
Proof.
  split; [split |].
  - intros H. rewrite <- H. apply rank_descending.
  - apply rank_stable_on_sorted.
  - apply rank_stable_on_sorted, rank_descending.
Qed.

(** The best quote comes first: the head of the ranked batch has a score
    that no analysis of the batch exceeds; an empty batch stays empty and
    the number of analyses is kept. *)
Theorem rank_head_best (batch : list QuoteAnalysisDto) :
  List.length (rank batch) = List.length batch
  /\ (rank batch = [] <-> batch = [])
  /\ forall best rest, rank batch = best :: rest ->
       In best batch /\ forall a, In a batch -> score a <= score best.
Proof.
  pose proof (Array_sort_perm byScoreDesc batch) as Hperm.
  fold (rank batch) in Hperm.
  split; [apply Permutation_length, Hperm |].
  split.
  - split; intros H.
    + rewrite H in Hperm. now apply Permutation_nil.
    + subst batch. reflexivity.
  - intros best rest Hrank.
    pose proof (rank_descending batch) as Hsorted. unfold scoreDescending in Hsorted.
    rewrite Hrank in Hperm, Hsorted.
    split.
    + apply (Permutation_in best Hperm). now left.
    + intros a Ha.
      apply (Permutation_in a (Permutation_sym Hperm)) in Ha.
      destruct Ha as [<- | Ha]; [lia |].
      apply StronglySorted_inv in Hsorted. destruct Hsorted as [_ Hall].
      rewrite Forall_forall in Hall. specialize (Hall a Ha). lia.
Qed.

Lemma rank_head_best_witness :
  In (set_vendor example_clean "B" 10) batchTies
  /\ score (set_vendor example_clean "D" 7) <= score (set_vendor example_clean "B" 10).
Proof.
  destruct (rank_head_best batchTies) as (_ & _ & Hbest).
  destruct (Hbest (set_vendor example_clean "B" 10)
                  [set_vendor example_clean "D" 7;
                   set_vendor example_clean "A" 5;
                   set_vendor example_clean "C" 5] eq_refl) as [Hin H].
  split; [exact Hin |].
  apply H. cbn. tauto.
Defined.

Section RankRelated.
Variable R : QuoteAnalysisDto -> QuoteAnalysisDto -> Prop.
Hypothesis R_score : forall a b, R a b -> score a = score b.

Lemma sort_insert_related (x x' : QuoteAnalysisDto) (l l' : list QuoteAnalysisDto) :
  R x x' -> Forall2 R l l' ->
  Forall2 R (sort_insert byScoreDesc x l) (sort_insert byScoreDesc x' l').
Proof.
  intros Hx Hl. induction Hl as [| y y' ys ys' Hy Hys IH]; cbn.
  - constructor; [exact Hx | constructor].
  - unfold byScoreDesc. rewrite (R_score _ _ Hx), (R_score _ _ Hy).
    destruct (score y' - score x' <=? 0).
    + constructor; [exact Hx |]. constructor; assumption.
    + constructor; [exact Hy | exact IH].
Qed.

Lemma Array_sort_related (l l' : list QuoteAnalysisDto) :
  Forall2 R l l' ->
  Forall2 R (Array_sort byScoreDesc l) (Array_sort byScoreDesc l').
Proof.
  induction 1 as [| x x' xs xs' Hx Hxs IH]; cbn; [constructor |].
  apply sort_insert_related; assumption.
Qed.
End RankRelated.

(** The order chosen depends on the scores alone: two batches whose
    analyses have the same scores position by position are permuted in
    the same way. *)
Theorem rank_depends_on_scores (R : QuoteAnalysisDto -> QuoteAnalysisDto -> Prop)
        (l l' : list QuoteAnalysisDto) :
  (forall a b, R a b -> score a = score b) ->
  Forall2 R l l' -> Forall2 R (rank l) (rank l').
Proof. intros HR Hl. unfold rank. now apply Array_sort_related. Qed.

Lemma rank_depends_on_scores_witness :
  Forall2 sameScoreAndFrame
    (rank (map Legacy.adjust [example_clean; example_penalised]))
    (rank (map applyBusinessRules [example_clean; example_penalised])).
Proof.
  apply (rank_depends_on_scores sameScoreAndFrame).
  - intros a b [H _]. exact H.
  - repeat constructor.
Defined.

(** * Further properties of the upstream client *)

(** Whatever the upstream answers, the client sends exactly one POST to
    [/analyze] under the 35 seconds timeout (it never retries), and the
    body holds one entry per submission, in order, with the three fields
    of the submission. *)
Theorem client_sends_one_post (net : Network) (quotes : list CreateQuoteDto.t)
        (log : list Request) :
  fst (AIServiceClient.analyzeQuotes net quotes log)
  = (log ++ [POST "/analyze" 35000 (payloadOf quotes)])%list
  /\ List.length (Payload.quotes (payloadOf quotes)) = List.length quotes
  /\ forall i q, nth_error quotes i = Some q ->
       exists w, nth_error (Payload.quotes (payloadOf quotes)) i = Some w
         /\ Payload.vendor_name w = CreateQuoteDto.vendorName q
         /\ Payload.content w = CreateQuoteDto.content q
         /\ Payload.category w = CreateQuoteDto.category q.
Proof.
  rewrite client_analyzeQuotes_eq. cbn [fst payloadOf Payload.quotes].
  split; [reflexivity |]. split; [apply length_map |].
  intros i q Hq. exists (AIServiceClient.serialize q).
  split; [now apply map_nth_error |]. repeat split.
Qed.

Lemma client_sends_one_post_witness :
  requests (AIServiceClient.analyzeQuotes netDown [quoteA; quoteB])
  = [POST "/analyze" 35000 (payloadOf [quoteA; quoteB])]
  /\ exists w, nth_error (Payload.quotes (payloadOf [quoteA; quoteB])) 1 = Some w
       /\ Payload.vendor_name w = "Azure".
Proof.
  destruct (client_sends_one_post netDown [quoteA; quoteB] []) as (Hreq & _ & Hnth).
  split; [exact Hreq |].
  destruct (Hnth 1%nat quoteB eq_refl) as (w & Hw & Hv & _).
  exists w. split; [exact Hw | exact Hv].
Defined.

(** When [handleError] throws an HTTP exception its status is 503, 504 or
    500, or else the status of the response carried by the axios error;
    the only other thing it throws is the [TypeError] of a rejection
    whose text cannot be converted to a string. *)
Theorem handleError_status_set (error : Exception) :
  (exists status,
     getStatus (AIServiceClient.handleError error) = Some status
     /\ (status = 503 \/ status = 504 \/ status = 500
         \/ exists e r, error = AxiosErr e /\ Axios.response e = Some r
                        /\ status = Axios.status r))
  \/ (exists e r,
        error = AxiosErr e /\ Axios.response e = Some r
        /\ toStringJs (AIServiceClient.aiErrorMessage (Axios.data r)) = None
        /\ AIServiceClient.handleError error
           = TypeError "Cannot convert object to primitive value").
Proof.
  unfold AIServiceClient.handleError.
  destruct error as [e | m | r s | m]; cbn [isAxiosError];
    try (left; exists 500; split; [reflexivity | tauto]).
  destruct (codeIs e "ECONNREFUSED" || codeIs e "ENOTFOUND");
    [left; exists 503; split; [reflexivity | tauto] |].
  destruct (codeIs e "ECONNABORTED" || codeIs e "ETIMEDOUT");
    [left; exists 504; split; [reflexivity | tauto] |].
  destruct (Axios.response e) as [r |] eqn:E.
  - destruct (toStringJs (AIServiceClient.aiErrorMessage (Axios.data r))) eqn:Et.
    + left. exists (Axios.status r). split; [reflexivity |].
      right; right; right. exists e, r. repeat split; auto.
    + right. exists e, r. repeat split; auto.
  - left. exists 500. split; [reflexivity | tauto].
Qed.

(** The statement without its second alternative is false: the
    rejection whose detail has an own [toString] property is thrown as a
    [TypeError], which has no HTTP status. *)
Example handleError_status_unrenderable :
  getStatus (AIServiceClient.handleError (AxiosErr errRejectedOpaque)) = None.
Proof. reflexivity. Qed.

(** The text of the caught error is never surfaced: the exception thrown
    depends on an axios error only through its code and its response,
    and is the same for every error that is not an axios error. *)
Theorem handleError_hides_message :
  (forall e e', Axios.code e = Axios.code e' ->
                Axios.response e = Axios.response e' ->
                AIServiceClient.handleError (AxiosErr e)
                = AIServiceClient.handleError (AxiosErr e'))
  /\ (forall error error',
        isAxiosError error = None -> isAxiosError error' = None ->
        AIServiceClient.handleError error = AIServiceClient.handleError error').
Proof.
  split.
  - intros e e' Hc Hr. unfold AIServiceClient.handleError, codeIs.
    cbn [isAxiosError]. rewrite Hc, Hr. reflexivity.
  - intros error error' H H'. unfold AIServiceClient.handleError.
    rewrite H, H'. reflexivity.
Qed.

Lemma handleError_hides_message_witness :
  AIServiceClient.handleError (TypeError "x is not a function")
  = AIServiceClient.handleError (BadRequestException "autre")
  /\ AIServiceClient.handleError (AxiosErr errTimeout)
     = AIServiceClient.handleError
         (AxiosErr {| Axios.code := Some "ECONNABORTED"; Axios.response := None;
                      Axios.errorMessage := "secret" |}).
Proof.
  destruct handleError_hides_message as [Haxios Hother].
  split.
  - apply Hother; reflexivity.
  - apply Haxios; reflexivity.
Defined.

Lemma aiErrorMessage_message (data : JsValue) :
  truthy (optGet data "detail") = false ->
  truthy (optGet data "message") = true ->
  AIServiceClient.aiErrorMessage data = optGet data "message".
Proof.
  intros Hd Hm. unfold AIServiceClient.aiErrorMessage.
  rewrite (orJs_falsy _ _ Hd). apply orJs_truthy, Hm.
Qed.

Lemma aiErrorMessage_default (data : JsValue) :
  truthy (optGet data "detail") = false ->
  truthy (optGet data "message") = false ->
  AIServiceClient.aiErrorMessage data = JsString AIServiceClient.unknown_ai_error.
Proof.
  intros Hd Hm. unfold AIServiceClient.aiErrorMessage.
  rewrite (orJs_falsy _ _ Hd). apply orJs_falsy, Hm.
Qed.

(** The text of a rejection follows [detail || message || default] by
    truthiness, over any JSON body: a truthy [detail] is embedded as the
    template literal converts it (a string as it is, a list of objects as
    "[object Object]"); without one, a truthy [message] is embedded; with
    neither, or with a [null] or [undefined] body, the text is "Erreur
    inconnue du service IA". *)
Theorem handleError_fallback_message (e : Axios.AxiosError)
        (r : Axios.Response JsValue) :
  ~ refusedOrNotFound e -> ~ timedOut e -> Axios.response e = Some r ->
  (nullish (Axios.data r) ->
   getMessage (AIServiceClient.handleError (AxiosErr e))
   = Some "Erreur lors de l'analyse : Erreur inconnue du service IA")
  /\ (truthy (optGet (Axios.data r) "detail") = false ->
      truthy (optGet (Axios.data r) "message") = false ->
      getMessage (AIServiceClient.handleError (AxiosErr e))
      = Some "Erreur lors de l'analyse : Erreur inconnue du service IA")
  /\ (forall text,
        truthy (optGet (Axios.data r) "detail") = false ->
        truthy (optGet (Axios.data r) "message") = true ->
        toStringJs (optGet (Axios.data r) "message") = Some text ->
        getMessage (AIServiceClient.handleError (AxiosErr e))
        = Some ("Erreur lors de l'analyse : " ++ text))
  /\ (forall text,
        truthy (optGet (Axios.data r) "detail") = true ->
        toStringJs (optGet (Axios.data r) "detail") = Some text ->
        getMessage (AIServiceClient.handleError (AxiosErr e))
        = Some ("Erreur lors de l'analyse : " ++ text)).
Proof.
  intros Hr Ht Hresp. rewrite (handleError_rejected e r Hr Ht Hresp).
  split; [| split; [| split]].
  - intros [-> | ->]; reflexivity.
  - intros Hd Hm. rewrite (aiErrorMessage_default _ Hd Hm). reflexivity.
  - intros text Hd Hm Htext.
    rewrite (aiErrorMessage_message _ Hd Hm), Htext. reflexivity.
  - intros text Hd Htext.
    rewrite (aiErrorMessage_detail _ Hd), Htext. reflexivity.
Qed.

Lemma handleError_fallback_message_witness :
  getMessage (AIServiceClient.handleError (AxiosErr errRejectedNoBody))
  = Some "Erreur lors de l'analyse : Erreur inconnue du service IA"
  /\ getMessage (AIServiceClient.handleError (AxiosErr errRejectedMessage))
     = Some "Erreur lors de l'analyse : Modèle indisponible"
  /\ getMessage (AIServiceClient.handleError (AxiosErr errRejectedList))
     = Some "Erreur lors de l'analyse : [object Object]".
Proof.
  assert (Hn : forall e c, Axios.code e = Some c ->
                 c = "ERR_BAD_RESPONSE" \/ c = "ERR_BAD_REQUEST" ->
                 ~ refusedOrNotFound e /\ ~ timedOut e).
  { intros e c Hc Hcases. unfold refusedOrNotFound, timedOut. rewrite Hc.
    destruct Hcases as [-> | ->]; split; intros [H | H]; discriminate. }
  destruct (Hn errRejectedNoBody _ eq_refl (or_introl eq_refl)) as [N1 N2].
  destruct (Hn errRejectedMessage _ eq_refl (or_introl eq_refl)) as [M1 M2].
  destruct (Hn errRejectedList _ eq_refl (or_intror eq_refl)) as [L1 L2].
  destruct (handleError_fallback_message errRejectedNoBody _ N1 N2 eq_refl)
    as (Hnull & _).
  destruct (handleError_fallback_message errRejectedMessage _ M1 M2 eq_refl)
    as (_ & _ & Hmsg & _).
  destruct (handleError_fallback_message errRejectedList _ L1 L2 eq_refl)
    as (_ & _ & _ & Hlist).
  split; [| split].
  - apply Hnull. left. reflexivity.
  - apply (Hmsg "Modèle indisponible"); reflexivity.
  - apply (Hlist "[object Object]"); reflexivity.
Defined.

(** * Further properties of the request handler *)

(** A batch outside the bounds is answered without looking at the
    network: fewer than two submissions (the empty batch included) get
    the at-least-two message, more than ten the at-most-ten message, both
    with status 400 and with nothing sent. *)
Theorem handler_rejections (net : Network) (quotes : list CreateQuoteDto.t)
        (log : list Request) :
  (len quotes < 2 ->
   QuotesService.analyzeQuotes net quotes log
   = (log, inl (BadRequestException QuotesService.too_few_message)))
  /\ (len quotes > 10 ->
      QuotesService.analyzeQuotes net quotes log
      = (log, inl (BadRequestException QuotesService.too_many_message)))
  /\ (len quotes < 2 \/ len quotes > 10 ->
      exists e, snd (QuotesService.analyzeQuotes net quotes log) = inl e
                /\ getStatus e = Some 400
                /\ forall net', QuotesService.analyzeQuotes net' quotes log
                                = QuotesService.analyzeQuotes net quotes log).
Proof.
  unfold QuotesService.analyzeQuotes.
  destruct (Z.ltb_spec (len quotes) 2) as [Hlt | Hge].
  - split; [reflexivity |]. split; [lia |].
    intros _. eexists. cbn. repeat split.
  - rewrite Z.gtb_ltb. destruct (Z.ltb_spec 10 (len quotes)) as [Hgt | Hle].
    + split; [lia |]. split; [reflexivity |].
      intros _. eexists. cbn. repeat split.
    + split; [lia |]. split; lia.
Qed.

Lemma handler_rejections_witness :
  run (QuotesService.analyzeQuotes netDown [])
  = ([], inl (BadRequestException
                "Veuillez soumettre au moins 2 devis pour une comparaison pertinente"))
  /\ run (QuotesService.analyzeQuotes netDown (repeat quoteA 11))
     = ([], inl (BadRequestException
                   "Maximum 10 devis par analyse pour garantir un temps de réponse acceptable")).
Proof.
  destruct (handler_rejections netDown [] []) as (Hfew & _ & _).
  destruct (handler_rejections netDown (repeat quoteA 11) []) as (_ & Hmany & _).
  split.
  - apply Hfew. reflexivity.
  - apply Hmany. reflexivity.
Defined.

(** When the upstream call fails on a batch within the bounds, the
    handler sends that one POST, rethrows the client's exception as it
    is, and returns no analysis. *)
Theorem handler_failure_passthrough (net : Network) (quotes : list CreateQuoteDto.t)
        (log : list Request) (err : Exception) :
  2 <= len quotes <= 10 ->
  analyzeReply net quotes = inl err ->
  QuotesService.analyzeQuotes net quotes log
  = ((log ++ [POST "/analyze" 35000 (payloadOf quotes)])%list,
     inl (AIServiceClient.handleError err)).
Proof.
  intros Hin Herr.
  rewrite (service_analyzeQuotes_accepted net quotes log Hin).
  rewrite client_analyzeQuotes_eq, Herr. reflexivity.
Qed.

Lemma handler_failure_passthrough_witness :
  run (QuotesService.analyzeQuotes netDown [quoteA; quoteB])
  = ([POST "/analyze" 35000 (payloadOf [quoteA; quoteB])],
     inl (HttpException
            (ObjectResponse 503 AIServiceClient.unavailable_message
               "Service Unavailable") 503)).
Proof.
  assert (Hin : 2 <= len [quoteA; quoteB] <= 10) by (vm_compute; split; discriminate).
  exact (handler_failure_passthrough netDown [quoteA; quoteB] []
           (AxiosErr errRefused) Hin eq_refl).
Defined.

Lemma vendorName_adjust_deserialize (l : list Upstream.analysis) :
  map vendorName (map applyBusinessRules (map AIServiceClient.deserialize l))
  = map Upstream.vendor_name l.
Proof.
  rewrite !map_map. apply map_ext. intros u.
  destruct (adjust_frame_fields (AIServiceClient.deserialize u)) as [-> _].
  reflexivity.
Qed.

(** On success the handler returns one analysis per upstream analysis,
    for the same vendors, every score non-negative, in descending order
    of score, with the upstream's recommendation and the instant read
    from the clock. *)
Theorem handler_success_shape (net : Network) (quotes : list CreateQuoteDto.t)
        (log : list Request) (reply : Axios.Response Upstream.data)
        (l : list Upstream.analysis) :
  2 <= len quotes <= 10 ->
  analyzeReply net quotes = inr reply ->
  Upstream.analyses (Axios.data reply) = Some l ->
  exists result,
    QuotesService.analyzeQuotes net quotes log
    = ((log ++ [POST "/analyze" 35000 (payloadOf quotes)])%list, inr result)
    /\ List.length (analyses result) = List.length l
    /\ Permutation (map vendorName (analyses result)) (map Upstream.vendor_name l)
    /\ Forall (fun a => 0 <= score a) (analyses result)
    /\ scoreDescending (analyses result)
    /\ recommendation result = Upstream.recommendation (Axios.data reply)
    /\ analyzedAt result = now net.
Proof.
  intros Hin Hreply Hl.
  rewrite (service_analyzeQuotes_accepted net quotes log Hin).
  rewrite client_analyzeQuotes_eq, Hreply, Hl. cbn [fst snd].
  eexists. split; [reflexivity |].
  cbn [adjustAndRank analyses recommendation analyzedAt].
  pose proof (Array_sort_perm byScoreDesc
                (map applyBusinessRules (map AIServiceClient.deserialize l)))
    as Hperm.
  fold (rank (map applyBusinessRules (map AIServiceClient.deserialize l))) in Hperm.
  split.
  { rewrite (Permutation_length Hperm), !length_map. reflexivity. }
  split.
  { rewrite <- vendorName_adjust_deserialize. apply Permutation_map, Hperm. }
  split.
  { eapply Permutation_Forall; [apply Permutation_sym, Hperm |].
    apply Forall_forall. intros a Ha. apply in_map_iff in Ha.
    destruct Ha as (x & <- & _). rewrite applyBusinessRules_score. lia. }
  split; [apply rank_descending |]. split; reflexivity.
Qed.

Lemma handler_success_shape_witness :
  exists result,
    outcome (QuotesService.analyzeQuotes netOk [quoteA; quoteB]) = inr result
    /\ List.length (analyses result) = 2%nat
    /\ recommendation result = "AWS".
Proof.
  assert (Hin : 2 <= len [quoteA; quoteB] <= 10) by (vm_compute; split; discriminate).
  destruct (handler_success_shape netOk [quoteA; quoteB] [] replyOk
              [upstreamA; upstreamB] Hin eq_refl eq_refl)
    as (result & Hrun & Hlen & _ & _ & _ & Hrec & _).
  exists result. unfold outcome, run. rewrite Hrun.
  split; [reflexivity |]. split; [exact Hlen | exact Hrec].
Defined.

(** * Further properties of the health probe *)

Lemma checkHealth_eq (net : Network) (log : list Request) :
  AIServiceClient.checkHealth net log
  = ((log ++ [GET "/" 5000])%list,
     inr match probeReply net with
         | inr reply =>
             match Axios.data reply with
             | JsObject props => strictEqString (lookupProp props "status") "ok"
             | _ => false
             end
         | inl _ => false
         end).
Proof.
  unfold AIServiceClient.checkHealth, tryCatch, bind,
    AIServiceClient.client_get, probeReply, push.
  destruct (get net "/" 5000) as [err | reply]; cbn; [reflexivity |].
  destruct (Axios.data reply); reflexivity.
Qed.

(** [GET /quotes/health] never raises and sends one GET of [/] under the
    probe's own 5 seconds timeout; the backend is always reported "ok",
    the overall status is "ok" when the upstream body is an object whose
    [status] is the string "ok" and "degraded" in every other case, and
    [aiService] is [true] exactly when the status is "ok". *)
Theorem controller_health (toISOString : Z -> string) (net : Network)
        (log : list Request) :
  exists report,
    QuotesController.checkHealth toISOString net log
    = ((log ++ [GET "/" 5000])%list, inr report)
    /\ QuotesController.backend report = "ok"
    /\ QuotesController.timestamp report = toISOString (now net)
    /\ (QuotesController.status report = "ok"
        \/ QuotesController.status report = "degraded")
    /\ (QuotesController.status report = "ok"
        <-> QuotesController.aiService report = true)
    /\ (QuotesController.aiService report = true
        <-> exists reply props,
              probeReply net = inr reply
              /\ Axios.data reply = JsObject props
              /\ lookupProp props "status" = JsString "ok").
Proof.
  unfold QuotesController.checkHealth, bind. rewrite checkHealth_eq.
  eexists. split; [reflexivity |]. cbn.
  split; [reflexivity |]. split; [reflexivity |].
  destruct (probeReply net) as [err | reply].
  - split; [now right |]. split; [split; discriminate |].
    split; [discriminate |]. intros (reply & props & H & _). discriminate.
  - destruct (Axios.data reply) as [| | b | n | s | items | props] eqn:E;
      try (split; [now right |]; split; [split; discriminate |];
           split; [discriminate |];
           intros (reply' & props' & H & H' & _);
           inversion H; subst reply'; congruence).
    destruct (lookupProp props "status") as [| | b | n | s | items | ps] eqn:El;
      cbn;
      try (split; [now right |]; split; [split; discriminate |];
           split; [discriminate |];
           intros (reply' & props' & H & H' & Hok);
           inversion H; subst reply'; rewrite E in H'; inversion H'; subst props';
           congruence).
    destruct (String.eqb_spec s "ok") as [-> | Hne].
    + split; [now left |]. split; [split; reflexivity |].
      split; [| reflexivity]. intros _. exists reply, props. repeat split; assumption.
    + split; [now right |]. split; [split; discriminate |].
      split; [discriminate |].
      intros (reply' & props' & H & H' & Hok).
      inversion H; subst reply'. rewrite E in H'. inversion H'; subst props'.
      rewrite El in Hok. inversion Hok. contradiction.
Qed.

Lemma controller_health_witness :
  outcome (QuotesController.checkHealth isoStub netOk)
  = inr {| QuotesController.status := "ok";
           QuotesController.backend := "ok";
           QuotesController.aiService := true;
           QuotesController.timestamp := "2023-11-14T22:13:20.000Z" |}
  /\ exists report,
       outcome (QuotesController.checkHealth isoStub netNullBody) = inr report
       /\ QuotesController.status report = "degraded".
Proof.
  split; [reflexivity |].
  destruct (controller_health isoStub netNullBody [])
    as (report & Hrun & _ & _ & Hstatus & Hiff & Hok).
  exists report. unfold outcome, run. rewrite Hrun. split; [reflexivity |].
  destruct Hstatus as [H | H]; [| exact H].
  exfalso. apply Hiff in H. apply Hok in H.
  destruct H as (reply & props & Hreply & Hdata & _).
  inversion Hreply; subst reply. discriminate.
Defined.

(** * Further properties of the earlier revision *)

(** The earlier catch block: only [ECONNREFUSED] gives 503; any other
    axios error without a response (an unresolved host, a timeout)
    gives the generic 500; a rejection keeps the upstream status and
    embeds [detail] when it is truthy, as the template literal converts
    it, and otherwise exposes the text of the axios error; a rejection
    with a [null] or [undefined] body escapes as a [TypeError]. *)
Theorem Legacy_onError_categories (e : Axios.AxiosError) :
  (Axios.code e = Some "ECONNREFUSED" ->
   Legacy.onError (AxiosErr e)
   = HttpException
       (TextResponse "Le service IA est indisponible. Veuillez réessayer plus tard.")
       503)
  /\ (Axios.code e <> Some "ECONNREFUSED" -> Axios.response e = None ->
      Legacy.onError (AxiosErr e)
      = HttpException (TextResponse "Erreur lors de l'analyse des devis") 500)
  /\ (forall r, Axios.code e <> Some "ECONNREFUSED" ->
        Axios.response e = Some r -> ~ nullish (Axios.data r) ->
        truthy (optGet (Axios.data r) "detail") = false ->
        Legacy.onError (AxiosErr e)
        = HttpException
            (TextResponse ("Erreur du service IA : " ++ Axios.errorMessage e))
            (Axios.status r))
  /\ (forall r text, Axios.code e <> Some "ECONNREFUSED" ->
        Axios.response e = Some r -> ~ nullish (Axios.data r) ->
        truthy (optGet (Axios.data r) "detail") = true ->
        toStringJs (optGet (Axios.data r) "detail") = Some text ->
        Legacy.onError (AxiosErr e)
        = HttpException (TextResponse ("Erreur du service IA : " ++ text))
            (Axios.status r))
  /\ (forall r, Axios.code e <> Some "ECONNREFUSED" ->
        Axios.response e = Some r -> nullish (Axios.data r) ->
        getStatus (Legacy.onError (AxiosErr e)) = None
        /\ exists m, Legacy.onError (AxiosErr e) = TypeError m).
Proof.
  assert (Hmember : forall data, ~ nullish data ->
                      member data "detail" = inr (optGet data "detail")).
  { intros data Hn. unfold nullish in Hn.
    destruct data; try reflexivity; exfalso; apply Hn; auto. }
  split; [apply Legacy_onError_refused |].
  split; [intros Hc Hr; rewrite (Legacy_onError_response e Hc), Hr; reflexivity |].
  split; [| split].
  - intros r Hc Hr Hn Hd.
    rewrite (Legacy_onError_response e Hc), Hr, (Hmember _ Hn).
    rewrite (orJs_falsy _ _ Hd). reflexivity.
  - intros r text Hc Hr Hn Hd Htext.
    rewrite (Legacy_onError_response e Hc), Hr, (Hmember _ Hn).
    rewrite (orJs_truthy _ _ Hd), Htext. reflexivity.
  - intros r Hc Hr Hn.
    rewrite (Legacy_onError_response e Hc), Hr.
    destruct Hn as [-> | ->]; cbn; split; eauto.
Qed.

Lemma Legacy_onError_categories_witness :
  getStatus (Legacy.onError (AxiosErr errNotFound)) = Some 500
  /\ getStatus (Legacy.onError (AxiosErr errTimeout)) = Some 500
  /\ getStatus (AIServiceClient.handleError (AxiosErr errNotFound)) = Some 503
  /\ getStatus (Legacy.onError (AxiosErr errRejectedNoBody)) = None
  /\ getMessage (Legacy.onError (AxiosErr errRejectedList))
     = Some "Erreur du service IA : [object Object]"
  /\ getMessage (Legacy.onError (AxiosErr errRejectedMessage))
     = Some "Erreur du service IA : Request failed with status code 500".
Proof.
  destruct (Legacy_onError_categories errNotFound) as (_ & Hnf & _).
  destruct (Legacy_onError_categories errTimeout) as (_ & Hto & _).
  destruct (Legacy_onError_categories errRejectedNoBody) as (_ & _ & _ & _ & Hnull).
  destruct (Legacy_onError_categories errRejectedList) as (_ & _ & _ & Hlist & _).
  destruct (Legacy_onError_categories errRejectedMessage) as (_ & _ & Hmsg & _).
  assert (Hobj : forall props, ~ nullish (JsObject props))
    by (intros props [H | H]; discriminate H).
  split; [rewrite Hnf; [reflexivity | discriminate | reflexivity] |].
  split; [rewrite Hto; [reflexivity | discriminate | reflexivity] |].
  split; [reflexivity |].
  split.
  - apply (Hnull (Axios.mkResponse 502 JsNull));
      [discriminate | reflexivity | left; reflexivity].
  - split.
    + erewrite Hlist;
        [reflexivity | discriminate | reflexivity | apply Hobj | reflexivity
        | reflexivity].
    + erewrite Hmsg;
        [reflexivity | discriminate | reflexivity | apply Hobj | reflexivity].
Defined.

Lemma map_adjust_related (l : list QuoteAnalysisDto) :
  Forall2 sameScoreAndFrame (map Legacy.adjust l) (map applyBusinessRules l).
Proof.
  induction l as [| a l IH]; cbn; constructor; [| exact IH].
  apply Legacy_adjust_related.
Qed.

(** The earlier handler and the current one decide alike: both reject a
    batch outside 2..10 with a [BadRequestException], and when the
    upstream gives the same well-formed reply to both, they return
    analyses that agree position by position on the score and on every
    field but the reasoning, with the same recommendation and instant. *)
Theorem Legacy_handler_agrees (net : Network) (quotes : list CreateQuoteDto.t)
        (log : list Request) :
  (len quotes < 2 \/ len quotes > 10 ->
   exists m m',
     Legacy.analyzeQuotes net quotes log = (log, inl (BadRequestException m))
     /\ QuotesService.analyzeQuotes net quotes log
        = (log, inl (BadRequestException m')))
  /\ (forall reply l,
        2 <= len quotes <= 10 ->
        post net "/analyze" 30000 (payloadOf quotes) = inr reply ->
        post net "/analyze" 35000 (payloadOf quotes) = inr reply ->
        Upstream.analyses (Axios.data reply) = Some l ->
        exists before after,
          snd (Legacy.analyzeQuotes net quotes log) = inr before
          /\ snd (QuotesService.analyzeQuotes net quotes log) = inr after
          /\ Forall2 sameScoreAndFrame (analyses before) (analyses after)
          /\ recommendation before = recommendation after
          /\ analyzedAt before = analyzedAt after).
Proof.
  split.
  - intros H. unfold Legacy.analyzeQuotes, QuotesService.analyzeQuotes.
    destruct (Z.ltb_spec (len quotes) 2) as [Hlt | Hge].
    + do 2 eexists. split; reflexivity.
    + rewrite Z.gtb_ltb. destruct (Z.ltb_spec 10 (len quotes)) as [Hgt | Hle].
      * do 2 eexists. split; reflexivity.
      * lia.
  - intros reply l Hin Hold Hnew Hl.
    rewrite (service_analyzeQuotes_accepted net quotes log Hin).
    rewrite client_analyzeQuotes_eq. unfold analyzeReply, AIServiceClient.timeout.
    rewrite Hnew, Hl.
    unfold Legacy.analyzeQuotes.
    destruct Hin as [Hlo Hhi].
    destruct (Z.ltb_spec (len quotes) 2) as [Hlt | _]; [lia |].
    rewrite Z.gtb_ltb. destruct (Z.ltb_spec 10 (len quotes)) as [Hgt | _]; [lia |].
    unfold bind. rewrite Legacy_client_analyzeQuotes_eq, Hold, Hl.
    do 2 eexists. split; [reflexivity |]. split; [reflexivity |].
    cbn. split; [| split; reflexivity].
    apply Array_sort_related.
    + intros a b [H _]. exact H.
    + apply map_adjust_related.
Qed.

Lemma Legacy_handler_agrees_witness :
  exists before after,
    outcome (Legacy.analyzeQuotes netOk [quoteA; quoteB]) = inr before
    /\ outcome (QuotesService.analyzeQuotes netOk [quoteA; quoteB]) = inr after
    /\ map score (analyses before) = [70; 55]
    /\ map score (analyses after) = [70; 55].
Proof.
  assert (Hin : 2 <= len [quoteA; quoteB] <= 10) by (vm_compute; split; discriminate).
  destruct (Legacy_handler_agrees netOk [quoteA; quoteB] []) as [_ Hagree].
  destruct (Hagree replyOk [upstreamA; upstreamB] Hin eq_refl eq_refl eq_refl)
    as (before & after & Hb & Ha & _).
  exists before, after.
  split; [exact Hb |]. split; [exact Ha |].
  unfold outcome, run.
  cbn in Hb, Ha. inversion Hb; inversion Ha. split; reflexivity.
Defined.

Example categories_distinct :
  NoDup QuotesService.getAvailableCategories
  /\ NoDup Legacy.getAvailableCategories
  /\ QuotesController.categories QuotesController.getCategories
     = QuotesService.getAvailableCategories.
Proof.
  split; [| split; [| reflexivity]];
    repeat (constructor; [cbn; intuition discriminate |]); constructor.
Qed.
